(** * Receipt processing tools: a shallow embedding and its properties

    The program is one Python module, [receipt_processor.py].  Its
    executable logic is the four tools of [ReceiptProcessingTools]
    ([extract_text_from_pdf], [save_json_data], [read_json_file],
    [list_pdf_files]); everything else configures two language-model
    agents and hands them a task description.

    The tools are thin wrappers around library calls ([pdfplumber],
    [json], [open], [os.listdir]).  The libraries are collected in a
    record [environment]; the tools are embedded over an arbitrary
    environment, so what is proved of them holds whatever the libraries
    do.  [Sample] is one concrete environment, with a small JSON reader
    and printer, on which the tools can be run.

    The repository has no code for the normalisation and aggregation
    that its specification describes: the task description asks a
    language model to do them.  [Core] models the two from the
    specification. *)

From Stdlib Require Import ZArith QArith Qcanon Ascii String List Permutation
  DecimalString DecimalPos SpecFloat Lia.
From stdpp Require Import base list strings gmap.

Set Warnings "-register-all".

(** ** Python strings *)

Module Str.

Definition to_list (s : string) : list ascii := list_ascii_of_string s.
Definition of_list (l : list ascii) : string := string_of_list_ascii l.

(** [str.isspace] on the characters below 128: tab, line feed, vertical
    tab, form feed, carriage return, the four separators 28..31 and the
    space. *)
Definition is_space (c : ascii) : bool :=
  let n := nat_of_ascii c in
  ((9 <=? n) && (n <=? 13)) || ((28 <=? n) && (n <=? 32)).

Fixpoint lstrip_list (l : list ascii) : list ascii :=
  match l with
  | c :: l' => if is_space c then lstrip_list l' else l
  | [] => []
  end.

Definition rstrip_list (l : list ascii) : list ascii :=
  List.rev (lstrip_list (List.rev l)).

(** [s.strip()] *)
Definition strip (s : string) : string :=
  of_list (rstrip_list (lstrip_list (to_list s))).

(** [c.lower()] on the characters below 128 *)
Definition lower_char (c : ascii) : ascii :=
  let n := nat_of_ascii c in
  if (65 <=? n) && (n <=? 90) then ascii_of_nat (n + 32) else c.

(** [s.lower()] *)
Definition lower (s : string) : string :=
  of_list (List.map lower_char (to_list s)).

Fixpoint prefix_list (p l : list ascii) : bool :=
  match p, l with
  | [], _ => true
  | a :: p', b :: l' => if Ascii.eqb a b then prefix_list p' l' else false
  | _ :: _, [] => false
  end.

(** [s.startswith(p)] *)
Definition startswith (s p : string) : bool :=
  prefix_list (to_list p) (to_list s).

(** [s.endswith(suffix)] *)
Definition endswith (s suffix : string) : bool :=
  prefix_list (List.rev (to_list suffix)) (List.rev (to_list s)).

(** [sep.join(parts)] *)
Fixpoint join (sep : string) (parts : list string) : string :=
  match parts with
  | [] => ""
  | [p] => p
  | p :: rest => p +:+ sep +:+ join sep rest
  end.

(** [''.join(parts)] *)
Fixpoint concat (parts : list string) : string :=
  match parts with
  | [] => ""
  | p :: rest => p +:+ concat rest
  end.

(** the double quote *)
Definition dquote : ascii := ascii_of_nat 34.

(** the line feed *)
Definition nl : string := String (ascii_of_nat 10) "".

End Str.

(** ** Exceptions *)

(** A raised exception: its class and the text [str(e)] gives. *)
Record exn := Exception { exn_class : string; exn_message : string }.

(** [str(e)] *)
Definition str (e : exn) : string := exn_message e.

(** The result of a computation that may raise. *)
Inductive outcome (A : Type) : Type :=
| Return (a : A)
| Raise (e : exn).

Arguments Return {A} a.
Arguments Raise {A} e.

Definition bind {A B : Type} (m : outcome A) (k : A -> outcome B) : outcome B :=
  match m with
  | Return a => k a
  | Raise e => Raise e
  end.

(** [try: m  except Exception as e: h e], both branches returning. *)
Definition try_except {A : Type} (m : outcome A) (h : exn -> A) : A :=
  match m with
  | Return a => a
  | Raise e => h e
  end.

Declare Scope py_scope.
Delimit Scope py_scope with py.
Notation "'let*' x ':=' m 'in' k" := (bind m (fun x => k))
  (at level 10, x name, m at level 100, k at level 200) : py_scope.
Notation "'try_' m 'except_' e '=>' h" := (try_except m (fun e => h))
  (at level 10, m at level 100, e name, h at level 200) : py_scope.
Open Scope py_scope.

(** ** Python values that JSON carries *)

(** What [json.loads] returns and [json.dump] accepts.  A number is
    modelled by its exact value; a [dict] keeps its items in insertion
    order. *)
Inductive pyval : Type :=
| PNone
| PBool (b : bool)
| PInt (z : Z)
| PFloat (q : Qc)
| PStr (s : string)
| PList (items : list pyval)
| PDict (items : list (string * pyval)).

(** [d.get(key)] on the items of a [dict] *)
Fixpoint dict_get (key : string) (items : list (string * pyval)) : option pyval :=
  match items with
  | [] => None
  | (k, v) :: rest => if String.eqb key k then Some v else dict_get key rest
  end.

(** [isinstance(v, list)] and [isinstance(v, dict)] *)
Definition is_list (v : pyval) : bool :=
  match v with PList _ => true | _ => false end.
Definition is_dict (v : pyval) : bool :=
  match v with PDict _ => true | _ => false end.

(** ** The libraries and the operating system *)

Inductive open_mode : Type := ModeR | ModeW.

(** What the tools call and do not define.  A page of an opened PDF is
    the outcome of its [extract_text()]: an exception, [None] or a text. *)
Record environment : Type := {
  (** [pdfplumber.open(path)] and the pages of the document *)
  pdfplumber_open : string -> outcome (list (outcome (option string)));
  (** [json.loads(s)], and [json.load(f)] on the text of [f] *)
  json_loads : string -> outcome pyval;
  (** the chunks [json.dump(v, f, indent=2)] writes, in order; their
      concatenation is [json.dumps(v, indent=2)] *)
  json_iterencode : pyval -> list string;
  (** [os.listdir(directory)] *)
  os_listdir : string -> outcome (list string);
  (** the error, if any, with which the system refuses to open a path in
      a mode (no permission, a directory, a missing parent) *)
  open_refused : open_mode -> string -> option exn;
  (** the error of opening a path that does not exist for reading *)
  file_not_found : string -> exn
}.

(** The regular files: path to text. *)
Abbreviation files := (gmap string string).

(** What a write does to the files, one system call at a time. *)
Inductive file_op : Type :=
| Truncate (path : string)
| Append (path : string) (chunk : string).

Definition apply_op (fs : files) (op : file_op) : files :=
  match op with
  | Truncate path => <[path := ""]> fs
  | Append path chunk => <[path := default "" (fs !! path) +:+ chunk]> fs
  end.

Definition run_ops (fs : files) (ops : list file_op) : files :=
  fold_left apply_op ops fs.

(** ** The tools *)

Section Tools.

Variable E : environment.

(** [json.dumps(v, indent=2)] *)
Definition json_dumps (v : pyval) : string :=
  Str.concat (json_iterencode E v).

(** The body of [for page in pdf.pages], started with [text]. *)
Fixpoint pages_loop (pages : list (outcome (option string))) (text : string)
  : outcome string :=
  match pages with
  | [] => Return text
  | page :: rest =>
      let* page_text := page in
      match page_text with
      | Some (String c t) => pages_loop rest (text +:+ (String c t +:+ Str.nl))
      | Some EmptyString | None => pages_loop rest text
      end
  end.

Definition extract_text_from_pdf (pdf_path : string) : string :=
  try_ (let* pages := pdfplumber_open E pdf_path in
        let* text := pages_loop pages "" in
        Return (Str.strip text))
  except_ e => "Error reading PDF: " +:+ str e.

(** The first statement of [save_json_data]: what is to be written. *)
Definition parsed_data (data : pyval) : pyval :=
  match data with
  | PStr s => try_ (json_loads E s) except_ _ => data
  | _ => data
  end.

(** [open(filename, 'w')] empties the file; [json.dump] then writes
    its chunks to it. *)
Definition dump_ops (v : pyval) (filename : string) : list file_op :=
  Truncate filename :: List.map (Append filename) (json_iterencode E v).

(** Whether [open(filename, mode)] is let through. *)
Definition open_check (mode : open_mode) (filename : string) : outcome unit :=
  match open_refused E mode filename with
  | Some e => Raise e
  | None => Return tt
  end.

Definition save_json_data (fs : files) (data : pyval) (filename : string)
  : files * string :=
  let parsed := parsed_data data in
  try_ (let* _ := open_check ModeW filename in
        Return (run_ops fs (dump_ops parsed filename),
                "Data saved successfully to " +:+ filename))
  except_ e => (fs, "Error saving data: " +:+ str e).

(** The files when [save_json_data] is cut short after its first [n]
    file operations. *)
Definition save_json_data_interrupted (n : nat) (fs : files) (data : pyval)
  (filename : string) : files :=
  try_ (let* _ := open_check ModeW filename in
        Return (run_ops fs (take n (dump_ops (parsed_data data) filename))))
  except_ _ => fs.

(** [open(filename, 'r')] and [f.read()] *)
Definition open_read (fs : files) (filename : string) : outcome string :=
  let* _ := open_check ModeR filename in
  match fs !! filename with
  | Some content => Return content
  | None => Raise (file_not_found E filename)
  end.

Definition read_json_file (fs : files) (filename : string) : string :=
  try_ (let* content := open_read fs filename in
        let* data := json_loads E content in
        Return (json_dumps data))
  except_ e => "Error reading file: " +:+ str e.

Definition is_pdf_name (f : string) : bool :=
  Str.endswith (Str.lower f) ".pdf".

Definition list_pdf_files (directory : string) : list string :=
  try_ (let* names := os_listdir E directory in
        Return (List.filter is_pdf_name names))
  except_ e => ["Error listing files: " +:+ str e].

(** *** The agents' tools and the calls of the aggregation agent *)

Inductive tool : Type :=
| Extract_text_from_pdf | Save_json_data | Read_json_file | List_pdf_files.

(** [tools=[...]] of [_create_extraction_agent] and of
    [_create_aggregation_agent] *)
Definition extraction_agent_tools : list tool :=
  [Extract_text_from_pdf; Save_json_data; List_pdf_files].
Definition aggregation_agent_tools : list tool :=
  [Read_json_file; Save_json_data].

(** A use of one of the aggregation agent's tools. *)
Inductive tool_call : Type :=
| Call_read_json_file (filename : string)
| Call_save_json_data (data : pyval) (filename : string).

Definition tool_of (c : tool_call) : tool :=
  match c with
  | Call_read_json_file _ => Read_json_file
  | Call_save_json_data _ _ => Save_json_data
  end.

Definition run_call (fs : files) (c : tool_call) : files * string :=
  match c with
  | Call_read_json_file filename => (fs, read_json_file fs filename)
  | Call_save_json_data data filename => save_json_data fs data filename
  end.

(** The calls, in order, and what each returned. *)
Fixpoint run_calls (fs : files) (cs : list tool_call) : files * list string :=
  match cs with
  | [] => (fs, [])
  | c :: rest =>
      let '(fs1, r) := run_call fs c in
      let '(fs2, rs) := run_calls fs1 rest in
      (fs2, r :: rs)
  end.

End Tools.

(** ** Words for stating what the tools do *)

(** The texts the loop keeps: those of the pages that have one. *)
Fixpoint page_texts (pages : list (outcome (option string))) : list string :=
  match pages with
  | [] => []
  | Return (Some (String c t)) :: rest => String c t :: page_texts rest
  | _ :: rest => page_texts rest
  end.

(** The exception of the first page whose [extract_text()] raises. *)
Fixpoint first_error (pages : list (outcome (option string))) : option exn :=
  match pages with
  | [] => None
  | Raise e :: _ => Some e
  | Return _ :: rest => first_error rest
  end.

(** What an atomic write may leave at its destination when it is cut
    short: what was there before, or the whole new text. *)
Definition atomic_at (before during after : option string) : Prop :=
  during = before \/ during = after.

(** The shape the specification's [load_records] demands of a document:
    an array whose elements are all objects. *)
Definition array_of_objects (v : pyval) : bool :=
  match v with
  | PList items => forallb is_dict items
  | _ => false
  end.

(** ** The normaliser and the aggregator *)

Module Core.

(** The numbers of the specification are those of JSON and Python.  The
    aggregator needs a zero and an addition of them; which numbers they
    are is left open here and fixed by an instance below: exact
    rationals (Python's [int], [Fraction] and [Decimal] add exactly) or
    binary64 (Python's [float], which rounds every sum). *)
Class Arithmetic (num : Type) : Type := {
  zero : num;
  add : num -> num -> num
}.

(** A normalised record: [{company_name: string, total_amount: number}]. *)
Record normalized_record (num : Type) : Type := {
  company_name : string;
  total_amount : num
}.
Arguments Build_normalized_record {num} _ _.
Arguments company_name {num} _.
Arguments total_amount {num} _.

Definition digit (c : ascii) : option Z :=
  let n := nat_of_ascii c in
  if (48 <=? n) && (n <=? 57) then Some (Z.of_nat (n - 48)) else None.

(** The digits at the head of [l]: their value on top of [acc], how
    many there were on top of [count], and what follows them. *)
Fixpoint read_digits (l : list ascii) (acc : Z) (count : nat)
  : Z * nat * list ascii :=
  match l with
  | c :: l' =>
      match digit c with
      | Some d => read_digits l' (10 * acc + d) (S count)
      | None => (acc, count, l)
      end
  | [] => (acc, count, [])
  end.

(** An unsigned decimal: digits, optionally a point and digits, with a
    digit somewhere. *)
Definition parse_unsigned (l : list ascii) : option Q :=
  let '(i, ni, rest) := read_digits l 0 0 in
  match rest with
  | [] => if (ni =? 0)%nat then None else Some (inject_Z i)
  | c :: rest' =>
      if Ascii.eqb c "." then
        let '(m, nf, rest'') := read_digits rest' i 0 in
        match rest'' with
        | [] => if (ni + nf =? 0)%nat then None
                else Some (Qmake m (Z.to_pos (10 ^ Z.of_nat nf)))
        | _ :: _ => None
        end
      else None
  end.

Definition parse_decimal (l : list ascii) : option Q :=
  match l with
  | c :: l' =>
      if Ascii.eqb c "-" then Qopp <$> parse_unsigned l'
      else if Ascii.eqb c "+" then parse_unsigned l'
      else parse_unsigned l
  | [] => None
  end.

(** The numeric parse of a text; it raises on a text that is no number. *)
Definition to_number (s : string) : outcome Qc :=
  match parse_decimal (Str.to_list s) with
  | Some q => Return (Q2Qc q)
  | None => Raise (Exception "ValueError"
                     ("could not convert string to float: " +:+ s))
  end.

(** A character a number can be written with. *)
Definition is_numeric_char (c : ascii) : bool :=
  match digit c with
  | Some _ => true
  | None => Ascii.eqb c "." || Ascii.eqb c "-" || Ascii.eqb c "+"
  end.

Fixpoint drop_symbols (l : list ascii) : list ascii :=
  match l with
  | c :: l' => if is_numeric_char c then l else drop_symbols l'
  | [] => []
  end.

(** Strip the symbols that are no part of a number from both ends. *)
Definition strip_symbols (s : string) : string :=
  Str.of_list (List.rev (drop_symbols (List.rev (drop_symbols (Str.to_list s))))).

Definition normalize_name (v : option pyval) : string :=
  match v with
  | Some (PStr s) => s
  | _ => ""
  end.

Definition normalize_amount (v : option pyval) : Qc :=
  match v with
  | Some (PInt z) => Q2Qc (inject_Z z)
  | Some (PFloat q) => q
  | Some (PStr s) =>
      try_ (to_number (strip_symbols (Str.strip s))) except_ _ => 0%Qc
  | _ => 0%Qc
  end.

(** Modelled from the spec: the repository has no [normalize] function
    (its task description asks a language model to "convert all
    total_amount strings to numbers" and to treat "empty or invalid
    amounts" as 0).  Section 4.1 of the specification: a missing or
    non-string [company_name] becomes the empty string, a string is
    used as it is; a numeric [total_amount] is used as it is, a string
    is stripped of whitespace and currency symbols and parsed, and a
    failed parse, an empty string or anything else gives 0. *)
Definition normalize (raw_record : list (string * pyval))
  : outcome (normalized_record Qc) :=
  Return {| company_name := normalize_name (dict_get "company_name" raw_record);
            total_amount := normalize_amount (dict_get "total_amount" raw_record) |}.

(** Exact arithmetic on rationals. *)
#[global] Instance rational_arithmetic : Arithmetic Qc := {|
  zero := 0%Qc;
  add := Qcplus
|}.

(** Python's [float]: IEEE 754 binary64 with rounding to nearest, ties
    to even, as [SpecFloat] defines it. *)
Module Binary64.

Definition prec : Z := 53.
Definition emax : Z := 1024.

Definition float : Type := spec_float.

(** An integer as a mantissa with exponent 0. *)
Definition of_Z (z : Z) : float :=
  match z with
  | Z0 => S754_zero false
  | Zpos p => S754_finite false p 0
  | Zneg p => S754_finite true p 0
  end.

Definition plus (x y : float) : float := SFadd prec emax x y.
Definition div (x y : float) : float := SFdiv prec emax x y.

(** The binary64 number nearest to the fraction [n/d]: the quotient of
    the two integers, rounded once.  It is what [float] makes of a
    decimal numeral, [0.1] being 1/10 and [12.50] being 1250/100. *)
Definition of_Q (q : Q) : float := div (of_Z (Qnum q)) (of_Z (Zpos (Qden q))).

End Binary64.

#[global] Instance binary64_arithmetic : Arithmetic Binary64.float := {|
  zero := S754_zero false;
  add := Binary64.plus
|}.


(** [m.keys()] and [m.values()] *)
Definition keys {num : Type} (m : list (string * num)) : list string := List.map fst m.

Section Aggregator.
Context {num : Type} `{Arithmetic num}.

(** Add [amount] to the running sum of [name], creating the key with
    the value 0 at the end of the map when it is new. *)
Fixpoint add_amount (name : string) (amount : num) (m : list (string * num))
  : list (string * num) :=
  match m with
  | [] => [(name, add zero amount)]
  | (k, total) :: rest =>
      if String.eqb k name then (k, add total amount) :: rest
      else (k, total) :: add_amount name amount rest
  end.

(** What the aggregator does with one record. *)
Definition step (m : list (string * num)) (r : normalized_record num)
  : list (string * num) :=
  add_amount (company_name r) (total_amount r) m.

(** Modelled from the spec: the repository has no [aggregate] function
    (its task description asks a language model to "group all receipts
    by company_name (exact matches)" and "for each company, sum all
    the total_amount values").  Section 4.2 of the specification: one
    pass over the records in input order, each adding its amount to
    the running sum of its company, the key being created with 0 on
    its first occurrence. *)
Definition aggregate (records : list (normalized_record num)) : list (string * num) :=
  fold_left step records [].



End Aggregator.


End Core.

(** ** A concrete environment *)

(** A JSON printer and reader that follow Python's [json] module on the
    documents used below (null, booleans, integers, decimals, strings,
    arrays and objects; two-space indentation), a PDF library and a
    directory listing given by tables, and a system that refuses to open
    only the empty path.  The text of the reader's error is the
    sample's own. *)
Module Sample.

Definition print_int (z : Z) : string := NilZero.string_of_int (Z.to_int z).

(** The digits after the point of [r / d], at most [fuel] of them. *)
Fixpoint fraction_digits (fuel : nat) (r d : Z) : list ascii :=
  match fuel with
  | O => []
  | S fuel' =>
      let r10 := (10 * r)%Z in
      ascii_of_nat (48 + Z.to_nat (r10 / d)) ::
        (if (r10 mod d =? 0)%Z then [] else fraction_digits fuel' (r10 mod d) d)
  end.

Definition print_float (q : Qc) : string :=
  let n := Qnum (this q) in
  let d := Zpos (Qden (this q)) in
  let a := Z.abs n in
  (if (n <? 0)%Z then "-" else "") +:+ print_int (a / d) +:+ "." +:+
    Str.of_list (fraction_digits 17 (a mod d) d).

Definition hex_digit (n : nat) : ascii :=
  ascii_of_nat (if n <? 10 then 48 + n else 87 + n).

(** One character inside a string literal, as [ensure_ascii] gives it. *)
Definition escape_char (c : ascii) : list ascii :=
  let n := nat_of_ascii c in
  if Ascii.eqb c Str.dquote then ["\"%char; Str.dquote]
  else if Ascii.eqb c "\" then ["\"; "\"]%char
  else if n =? 10 then ["\"; "n"]%char
  else if n =? 13 then ["\"; "r"]%char
  else if n =? 9 then ["\"; "t"]%char
  else if n =? 8 then ["\"; "b"]%char
  else if n =? 12 then ["\"; "f"]%char
  else if (n <? 32) || (126 <? n)
       then ["\"; "u"; "0"; "0"; hex_digit (n / 16); hex_digit (n mod 16)]%char
  else [c].

Definition print_string (s : string) : string :=
  Str.of_list ([Str.dquote] ++ List.concat (List.map escape_char (Str.to_list s))
               ++ [Str.dquote]).

Fixpoint spaces (n : nat) : string :=
  match n with O => "" | S n' => String " " (spaces n') end.

(** A line feed and the indentation of nesting depth [level]. *)
Definition newline_indent (level : nat) : string :=
  Str.nl +:+ spaces (2 * level).

(** The text of a value that is printed in one piece. *)
Definition simple_text (v : pyval) : option string :=
  match v with
  | PNone => Some "null"
  | PBool true => Some "true"
  | PBool false => Some "false"
  | PInt z => Some (print_int z)
  | PFloat q => Some (print_float q)
  | PStr s => Some (print_string s)
  | PList _ | PDict _ => None
  end.

(** The chunks of the elements of an array and of the members of an
    object, cut where the encoder of Python's [json] cuts them: an
    element that is printed in one piece comes with the bracket or the
    separator before it. *)
Section Containers.

Variable encode_value : pyval -> list string.
Variable separator : string.

Fixpoint encode_elements (buf : string) (l : list pyval) : list string :=
  match l with
  | [] => []
  | y :: l' =>
      match simple_text y with
      | Some t => [buf +:+ t]
      | None => buf :: encode_value y
      end ++ encode_elements separator l'
  end.

Fixpoint encode_members (first : bool) (l : list (string * pyval)) : list string :=
  match l with
  | [] => []
  | (k, y) :: l' =>
      (if first then [] else [separator])
      ++ print_string k :: ": " :: encode_value y
      ++ encode_members false l'
  end.

End Containers.

(** The chunks of a value at nesting depth [level]. *)
Fixpoint encode (level : nat) (v : pyval) : list string :=
  match v with
  | PList items =>
      match items with
      | [] => ["[]"]
      | _ :: _ =>
          encode_elements (encode (S level)) ("," +:+ newline_indent (S level))
            ("[" +:+ newline_indent (S level)) items
          ++ [newline_indent level; "]"]
      end
  | PDict items =>
      match items with
      | [] => ["{}"]
      | _ :: _ =>
          "{" :: newline_indent (S level) ::
          encode_members (encode (S level)) ("," +:+ newline_indent (S level))
            true items
          ++ [newline_indent level; "}"]
      end
  | _ =>
      match simple_text v with
      | Some t => [t]
      | None => []
      end
  end.

Definition iterencode (v : pyval) : list string := encode 0 v.

(** *** The reader *)

Definition is_ws (c : ascii) : bool :=
  let n := nat_of_ascii c in
  (n =? 32) || (n =? 9) || (n =? 10) || (n =? 13).

Fixpoint skip_ws (l : list ascii) : list ascii :=
  match l with
  | c :: l' => if is_ws c then skip_ws l' else l
  | [] => []
  end.

Definition hex_value (c : ascii) : option nat :=
  let n := nat_of_ascii c in
  if (48 <=? n) && (n <=? 57) then Some (n - 48)
  else if (97 <=? n) && (n <=? 102) then Some (n - 87)
  else if (65 <=? n) && (n <=? 70) then Some (n - 55)
  else None.

(** The rest of a string literal, after its opening quote. *)
Fixpoint read_string (l : list ascii) (acc : list ascii)
  : option (string * list ascii) :=
  match l with
  | [] => None
  | c :: l' =>
      if Ascii.eqb c Str.dquote then Some (Str.of_list (List.rev acc), l')
      else if Ascii.eqb c "\" then
        match l' with
        | e :: l'' =>
            if Ascii.eqb e "u" then
              match l'' with
              | h1 :: h2 :: h3 :: h4 :: l3 =>
                  match hex_value h1, hex_value h2, hex_value h3, hex_value h4 with
                  | Some 0, Some 0, Some a, Some b =>
                      read_string l3 (ascii_of_nat (16 * a + b) :: acc)
                  | _, _, _, _ => None
                  end
              | _ => None
              end
            else
              match
                (if Ascii.eqb e Str.dquote then Some Str.dquote
                 else if Ascii.eqb e "\" then Some "\"%char
                 else if Ascii.eqb e "/" then Some "/"%char
                 else if Ascii.eqb e "n" then Some (ascii_of_nat 10)
                 else if Ascii.eqb e "r" then Some (ascii_of_nat 13)
                 else if Ascii.eqb e "t" then Some (ascii_of_nat 9)
                 else if Ascii.eqb e "b" then Some (ascii_of_nat 8)
                 else if Ascii.eqb e "f" then Some (ascii_of_nat 12)
                 else None)
              with
              | Some c' => read_string l'' (c' :: acc)
              | None => None
              end
        | [] => None
        end
      else if nat_of_ascii c <? 32 then None
      else read_string l' (c :: acc)
  end.

(** A number after its sign: an integer part without a superfluous
    leading zero, optionally a fraction, optionally an exponent.  An
    integer is read as an [int], anything else as a [float]. *)
Definition read_unsigned (neg : bool) (l0 : list ascii)
  : option (pyval * list ascii) :=
  let '(i, ni, l1) := Core.read_digits l0 0 0 in
  let leading_zero :=
    match l0 with c :: _ => Ascii.eqb c "0" && (1 <? ni) | [] => false end in
  if (ni =? 0) || leading_zero then None
  else
    let sign (z : Z) := if neg then (- z)%Z else z in
    let '(m, nf, l2, has_frac) :=
      match l1 with
      | c :: l1' =>
          if Ascii.eqb c "." then
            let '(m, nf, l2) := Core.read_digits l1' i 0 in
            (m, nf, l2, true)
          else (i, 0, l1, false)
      | [] => (i, 0, l1, false)
      end in
    if has_frac && (nf =? 0) then None
    else
      let '(e, l3, has_exp, exp_ok) :=
        match l2 with
        | c :: l2' =>
            if Ascii.eqb c "e" || Ascii.eqb c "E" then
              let '(eneg, l2'') :=
                match l2' with
                | s :: r => if Ascii.eqb s "-" then (true, r)
                            else if Ascii.eqb s "+" then (false, r)
                            else (false, l2')
                | [] => (false, l2')
                end in
              let '(e, ne, l3) := Core.read_digits l2'' 0 0 in
              ((if eneg then - e else e)%Z, l3, true, negb (ne =? 0))
            else (0%Z, l2, false, true)
        | [] => (0%Z, l2, false, true)
        end in
      if negb exp_ok then None
      else if has_frac || has_exp then
        let q := (inject_Z (sign m) / inject_Z (10 ^ Z.of_nat nf)
                  * (if (e <? 0)%Z then / inject_Z (10 ^ (- e))
                     else inject_Z (10 ^ e)))%Q in
        Some (PFloat (Q2Qc q), l3)
      else Some (PInt (sign i), l3).

Definition read_number (l : list ascii) : option (pyval * list ascii) :=
  match l with
  | c :: l' => if Ascii.eqb c "-" then read_unsigned true l' else read_unsigned false l
  | [] => None
  end.

(** [d[k] = v]: a key already there keeps its place. *)
Fixpoint dict_set (k : string) (v : pyval) (items : list (string * pyval))
  : list (string * pyval) :=
  match items with
  | [] => [(k, v)]
  | (k', v') :: rest =>
      if String.eqb k' k then (k', v) :: rest else (k', v') :: dict_set k v rest
  end.

Fixpoint read_value (fuel : nat) (l : list ascii) : option (pyval * list ascii) :=
  match fuel with
  | O => None
  | S fuel' =>
      match l with
      | [] => None
      | c :: r =>
          if Ascii.eqb c Str.dquote then
            match read_string r [] with
            | Some (s, r') => Some (PStr s, r')
            | None => None
            end
          else if Ascii.eqb c "[" then
            match skip_ws r with
            | c' :: r' =>
                if Ascii.eqb c' "]" then Some (PList [], r')
                else read_items fuel' (c' :: r') []
            | [] => None
            end
          else if Ascii.eqb c "{" then
            match skip_ws r with
            | c' :: r' =>
                if Ascii.eqb c' "}" then Some (PDict [], r')
                else read_members fuel' (c' :: r') []
            | [] => None
            end
          else if Str.prefix_list (Str.to_list "null") l
            then Some (PNone, drop 4 l)
          else if Str.prefix_list (Str.to_list "true") l
            then Some (PBool true, drop 4 l)
          else if Str.prefix_list (Str.to_list "false") l
            then Some (PBool false, drop 5 l)
          else read_number l
      end
  end
with read_items (fuel : nat) (l : list ascii) (acc : list pyval)
  : option (pyval * list ascii) :=
  match fuel with
  | O => None
  | S fuel' =>
      match read_value fuel' l with
      | Some (v, r) =>
          match skip_ws r with
          | c :: r' =>
              if Ascii.eqb c "," then read_items fuel' (skip_ws r') (acc ++ [v])
              else if Ascii.eqb c "]" then Some (PList (acc ++ [v]), r')
              else None
          | [] => None
          end
      | None => None
      end
  end
with read_members (fuel : nat) (l : list ascii) (acc : list (string * pyval))
  : option (pyval * list ascii) :=
  match fuel with
  | O => None
  | S fuel' =>
      match l with
      | q :: r0 =>
          if Ascii.eqb q Str.dquote then
            match read_string r0 [] with
            | Some (k, r1) =>
                match skip_ws r1 with
                | c :: r2 =>
                    if Ascii.eqb c ":" then
                      match read_value fuel' (skip_ws r2) with
                      | Some (v, r3) =>
                          match skip_ws r3 with
                          | c' :: r4 =>
                              if Ascii.eqb c' "," then
                                read_members fuel' (skip_ws r4) (dict_set k v acc)
                              else if Ascii.eqb c' "}" then
                                Some (PDict (dict_set k v acc), r4)
                              else None
                          | [] => None
                          end
                      | None => None
                      end
                    else None
                | [] => None
                end
            | None => None
            end
          else None
      | [] => None
      end
  end.

Definition decode_error : exn :=
  Exception "JSONDecodeError" "not a JSON document".

Definition loads (s : string) : outcome pyval :=
  let l := Str.to_list s in
  match read_value (2 * length l + 2) (skip_ws l) with
  | Some (v, rest) =>
      match skip_ws rest with
      | [] => Return v
      | _ :: _ => Raise decode_error
      end
  | None => Raise decode_error
  end.

(** The text of the error a missing path gives, for a path that needs
    no escaping. *)
Definition no_such_file (path : string) : exn :=
  Exception "FileNotFoundError"
    ("[Errno 2] No such file or directory: '" +:+ path +:+ "'").

(** One document of three pages, the second without text. *)
Definition open_pdf (path : string) : outcome (list (outcome (option string))) :=
  if String.eqb path "receipts/cafe.pdf"
  then Return [Return (Some "Cafe A"); Return (Some ""); Return (Some "Total 10.00 ")]
  else if String.eqb path "receipts/scan.pdf"
  then Return [Return None]
  else Raise (no_such_file path).

(** One directory. *)
Definition listdir (directory : string) : outcome (list string) :=
  if String.eqb directory "receipts"
  then Return ["cafe.pdf"; "notes.txt"; "SCAN.PDF"; "pdf"]
  else Raise (no_such_file directory).

Definition refused (mode : open_mode) (path : string) : option exn :=
  if String.eqb path "" then Some (no_such_file path) else None.

Definition env : environment := {|
  pdfplumber_open := open_pdf;
  json_loads := loads;
  json_iterencode := iterencode;
  os_listdir := listdir;
  open_refused := refused;
  file_not_found := no_such_file
|}.

(** *** What the printer writes, character by character *)

Fixpoint uint_value (d : Decimal.uint) (acc : Z) : Z :=
  match d with
  | Decimal.Nil => acc
  | Decimal.D0 d' => uint_value d' (10 * acc + 0)
  | Decimal.D1 d' => uint_value d' (10 * acc + 1)
  | Decimal.D2 d' => uint_value d' (10 * acc + 2)
  | Decimal.D3 d' => uint_value d' (10 * acc + 3)
  | Decimal.D4 d' => uint_value d' (10 * acc + 4)
  | Decimal.D5 d' => uint_value d' (10 * acc + 5)
  | Decimal.D6 d' => uint_value d' (10 * acc + 6)
  | Decimal.D7 d' => uint_value d' (10 * acc + 7)
  | Decimal.D8 d' => uint_value d' (10 * acc + 8)
  | Decimal.D9 d' => uint_value d' (10 * acc + 9)
  end.

Definition uint_chars (d : Decimal.uint) : list ascii :=
  Str.to_list (NilEmpty.string_of_uint d).

Definition nonzero_head (d : Decimal.uint) : Prop :=
  match d with
  | Decimal.Nil | Decimal.D0 _ => False
  | _ => True
  end.

Definition stops (t : ascii) : Prop :=
  Core.digit t = None /\ Ascii.eqb t "." = false
  /\ Ascii.eqb t "e" = false /\ Ascii.eqb t "E" = false.

Definition number_start (c : ascii) : bool :=
  match Core.digit c with
  | Some _ => true
  | None => Ascii.eqb c "-"
  end.

Definition int_chars (z : Z) : list ascii := Str.to_list (print_int z).

Definition nl_char : ascii := ascii_of_nat 10.

Definition key_chars (k : string) : list ascii :=
  Str.dquote :: List.concat (List.map escape_char (Str.to_list k)) ++ [Str.dquote].

(** The members of an object of integers as the printer writes them at
    depth one, up to and including the closing brace. *)

Fixpoint members_chars (items : list (string * Z)) (rest : list ascii) : list ascii :=
  match items with
  | [] => rest
  | (k, z) :: more =>
      key_chars k ++ ":"%char :: " "%char :: int_chars z ++
        match more with
        | [] => nl_char :: "}"%char :: rest
        | _ :: _ => ","%char :: nl_char :: " "%char :: " "%char :: members_chars more rest
        end
  end.

Definition int_items (items : list (string * Z)) : list (string * pyval) :=
  List.map (fun kz => (fst kz, PInt (snd kz))) items.

Definition set_all (acc : list (string * pyval)) (items : list (string * Z))
  : list (string * pyval) :=
  fold_left (fun a kz => dict_set (fst kz) (PInt (snd kz)) a) items acc.

End Sample.

(** ** More of the tools' use *)

(** [not s.strip()]: a text of whitespace only. *)
Definition blank (s : string) : bool :=
  forallb Str.is_space (Str.to_list s).

(** A list that does not begin with whitespace. *)
Definition starts_solid (l : list ascii) : Prop :=
  match l with
  | [] => True
  | c :: _ => Str.is_space c = false
  end.

(** The files a list of calls may write: those named in a save. *)
Fixpoint saved_paths (cs : list tool_call) : list string :=
  match cs with
  | [] => []
  | Call_read_json_file _ :: rest => saved_paths rest
  | Call_save_json_data _ filename :: rest => filename :: saved_paths rest
  end.

(** A second environment: the sample one, with a document whose text
    reads like an error message, a directory whose only file is named
    like one, and a directory without PDF files. *)
Module Echo.

Definition open_pdf (path : string) : outcome (list (outcome (option string))) :=
  if String.eqb path "echo.pdf"
  then Return [Return (Some
         "Error reading PDF: [Errno 2] No such file or directory: 'missing.pdf'")]
  else Sample.open_pdf path.

Definition listdir (directory : string) : outcome (list string) :=
  if String.eqb directory "mirror"
  then Return ["Error listing files: [Errno 2] No such file or directory: 'missing'"]
  else if String.eqb directory "texts"
  then Return ["notes.txt"; "pdf"; "a.pdf.bak"]
  else Sample.listdir directory.

Definition env : environment := {|
  pdfplumber_open := open_pdf;
  json_loads := Sample.loads;
  json_iterencode := Sample.iterencode;
  os_listdir := listdir;
  open_refused := Sample.refused;
  file_not_found := Sample.no_such_file
|}.

End Echo.

(** * Properties *)

(** Helper lemmas on strings. *)
Module StrFacts.
Import Str.

Lemma of_to (s : string) : of_list (to_list s) = s.
Proof. apply string_of_list_ascii_of_string. Qed.

Lemma to_of (l : list ascii) : to_list (of_list l) = l.
Proof. apply list_ascii_of_string_of_list_ascii. Qed.

Lemma to_list_app (a b : string) : to_list (a +:+ b) = to_list a ++ to_list b.
Proof.
  unfold to_list. induction a as [|c a IH]; [reflexivity|].
  change (String c a +:+ b) with (String c (a +:+ b)). simpl. now rewrite IH.
Qed.

Lemma of_list_app (a b : list ascii) : of_list (a ++ b) = of_list a +:+ of_list b.
Proof.
  rewrite <- (of_to (of_list a +:+ of_list b)), to_list_app, !to_of. reflexivity.
Qed.

Lemma app_assoc (a b c : string) : (a +:+ b) +:+ c = a +:+ (b +:+ c).
Proof.
  induction a as [|x a IH]; [reflexivity|].
  change (String x (a +:+ b) +:+ c = String x (a +:+ (b +:+ c))).
  change (String x ((a +:+ b) +:+ c) = String x (a +:+ (b +:+ c))).
  now rewrite IH.
Qed.

Lemma app_nil_r (a : string) : a +:+ "" = a.
Proof.
  induction a as [|x a IH]; [reflexivity|].
  change (String x (a +:+ "") = String x a). now rewrite IH.
Qed.

Lemma prefix_list_spec (p l : list ascii) :
  prefix_list p l = true <-> exists r, l = p ++ r.
Proof.
  revert l. induction p as [|a p IH]; intros l; simpl.
  - split; [intros _; now exists l | reflexivity].
  - destruct l as [|b l].
    + split; [discriminate | intros [r Hr]; discriminate].
    + destruct (Ascii.eqb_spec a b) as [->|Hab].
      * rewrite IH. split; intros [r Hr]; exists r; [now rewrite Hr | now injection Hr].
      * split; [discriminate | intros [r Hr]; injection Hr; congruence].
Qed.

Lemma startswith_app (p s : string) : startswith (p +:+ s) p = true.
Proof.
  unfold startswith. apply prefix_list_spec. exists (to_list s). apply to_list_app.
Qed.

Lemma endswith_spec (s suffix : string) :
  endswith s suffix = true <-> exists stem, s = stem +:+ suffix.
Proof.
  unfold endswith. rewrite prefix_list_spec. split.
  - intros [r Hr]. exists (of_list (List.rev r)).
    rewrite <- (of_to s), <- (of_to suffix) at 1.
    rewrite <- of_list_app. f_equal.
    rewrite <- (rev_involutive (to_list s)), Hr, rev_app_distr, rev_involutive.
    reflexivity.
  - intros [stem ->]. exists (List.rev (to_list stem)).
    rewrite to_list_app. apply rev_app_distr.
Qed.

Lemma lstrip_list_snoc (l : list ascii) (c : ascii) :
  is_space c = true ->
  lstrip_list (l ++ [c]) = match lstrip_list l with [] => [] | x :: r => (x :: r) ++ [c] end.
Proof.
  intros Hc. induction l as [|a l IH]; simpl.
  - now rewrite Hc.
  - destruct (is_space a); [exact IH | reflexivity].
Qed.

Lemma rstrip_list_snoc (l : list ascii) (c : ascii) :
  is_space c = true -> rstrip_list (l ++ [c]) = rstrip_list l.
Proof.
  intros Hc. unfold rstrip_list. rewrite rev_app_distr. simpl. now rewrite Hc.
Qed.

Lemma strip_app_space (s : string) (c : ascii) :
  is_space c = true -> strip (s +:+ String c "") = strip s.
Proof.
  intros Hc. unfold strip. f_equal. rewrite to_list_app. simpl.
  rewrite lstrip_list_snoc by exact Hc.
  destruct (lstrip_list (to_list s)) as [|x r]; [reflexivity|].
  now apply rstrip_list_snoc.
Qed.

Lemma strip_app_nl (s : string) : strip (s +:+ nl) = strip s.
Proof. apply strip_app_space. reflexivity. Qed.

Lemma concat_lines (ts : list string) :
  concat (List.map (fun t => t +:+ nl) ts)
  = match ts with [] => "" | _ :: _ => join nl ts +:+ nl end.
Proof.
  induction ts as [|t ts IH]; [reflexivity|].
  simpl. rewrite IH. destruct ts as [|t' ts]; simpl.
  - now rewrite app_nil_r.
  - now rewrite !app_assoc.
Qed.

Lemma strip_lines (ts : list string) :
  strip (concat (List.map (fun t => t +:+ nl) ts)) = strip (join nl ts).
Proof.
  rewrite concat_lines. destruct ts; [reflexivity|]. apply strip_app_nl.
Qed.

Lemma concat_app (a b : list string) : concat (a ++ b) = concat a +:+ concat b.
Proof.
  induction a as [|x a IH]; simpl; [reflexivity|]. now rewrite IH, app_assoc.
Qed.

End StrFacts.

(** Helper lemmas on the running sums. *)
Module CoreFacts.
Import Core.








(** What holds in every arithmetic. *)
Section AnyArithmetic.
Context {num : Type} `{Arithmetic num}.











End AnyArithmetic.

(** What holds when the addition is exact: associative and commutative,
    with 0 neutral. *)
Section ExactArithmetic.
Context {num : Type} `{Arithmetic num}.
Hypothesis add_comm : forall x y : num, add x y = add y x.
Hypothesis add_assoc : forall x y z : num, add x (add y z) = add (add x y) z.



Hypothesis add_zero_l : forall x : num, add zero x = x.





End ExactArithmetic.

End CoreFacts.

(** Helper lemmas on the tools, in any environment. *)
Section ToolFacts.
Variable E : environment.

Lemma pages_loop_spec (pages : list (outcome (option string))) : forall text,
  pages_loop pages text
  = match first_error pages with
    | Some e => Raise e
    | None => Return (text +:+ Str.concat (List.map (fun t => t +:+ Str.nl) (page_texts pages)))
    end.
Proof.
  induction pages as [|page pages IH]; intros text; simpl.
  - now rewrite StrFacts.app_nil_r.
  - destruct page as [[[|c t]|]|e]; simpl; rewrite ?IH; try reflexivity.
    destruct (first_error pages); [reflexivity|].
    now rewrite StrFacts.app_assoc.
Qed.

Lemma run_appends (chunks : list string) : forall (fs : files) (f c : string),
  run_ops (<[f := c]> fs) (List.map (Append f) chunks)
  = <[f := c +:+ Str.concat chunks]> fs.
Proof.
  unfold run_ops.
  induction chunks as [|x chunks IH]; intros fs f c; simpl.
  - now rewrite StrFacts.app_nil_r.
  - rewrite lookup_insert_eq, insert_insert_eq. simpl.
    rewrite IH. now rewrite StrFacts.app_assoc.
Qed.

Lemma run_dump_ops_take (n : nat) (fs : files) (v : pyval) (f : string) :
  run_ops fs (take (S n) (dump_ops E v f))
  = <[f := Str.concat (take n (json_iterencode E v))]> fs.
Proof.
  unfold dump_ops. rewrite firstn_cons, firstn_map.
  change (run_ops fs (Truncate f :: ?l)) with (run_ops (<[f := ""]> fs) l).
  apply run_appends.
Qed.

Lemma run_dump_ops (fs : files) (v : pyval) (f : string) :
  run_ops fs (dump_ops E v f) = <[f := json_dumps E v]> fs.
Proof.
  unfold dump_ops.
  change (run_ops fs (Truncate f :: ?l)) with (run_ops (<[f := ""]> fs) l).
  apply run_appends.
Qed.

Lemma save_json_data_result (fs : files) (data : pyval) (filename : string) :
  save_json_data E fs data filename
  = match open_refused E ModeW filename with
    | Some e => (fs, "Error saving data: " +:+ str e)
    | None => (<[filename := json_dumps E (parsed_data E data)]> fs,
               "Data saved successfully to " +:+ filename)
    end.
Proof.
  unfold save_json_data, open_check.
  destruct (open_refused E ModeW filename) as [e|]; cbv [try_except bind];
    [reflexivity|].
  now rewrite run_dump_ops.
Qed.

Lemma save_json_data_other_paths (fs : files) (data : pyval) (filename path : string) :
  path <> filename ->
  fst (save_json_data E fs data filename) !! path = fs !! path.
Proof.
  intros Hne. rewrite save_json_data_result.
  destruct (open_refused E ModeW filename); simpl; [reflexivity|].
  now rewrite lookup_insert_ne.
Qed.

Lemma read_after_save (fs : files) (data : pyval) (filename : string) :
  open_refused E ModeW filename = None ->
  open_refused E ModeR filename = None ->
  read_json_file E (fst (save_json_data E fs data filename)) filename
  = try_ (let* back := json_loads E (json_dumps E (parsed_data E data)) in
          Return (json_dumps E back))
    except_ e => "Error reading file: " +:+ str e.
Proof.
  intros Hw Hr. rewrite save_json_data_result, Hw. simpl fst.
  unfold read_json_file, open_read, open_check. rewrite Hr.
  cbv [bind]. now rewrite lookup_insert_eq.
Qed.

Lemma read_json_file_lookup (fs1 fs2 : files) (filename : string) :
  fs1 !! filename = fs2 !! filename ->
  read_json_file E fs1 filename = read_json_file E fs2 filename.
Proof.
  intros Hsame. unfold read_json_file, open_read. now rewrite Hsame.
Qed.

Lemma run_calls_cons (fs : files) (c : tool_call) (cs : list tool_call) :
  run_calls E fs (c :: cs)
  = (fst (run_calls E (fst (run_call E fs c)) cs),
     snd (run_call E fs c) :: snd (run_calls E (fst (run_call E fs c)) cs)).
Proof.
  simpl. destruct (run_call E fs c) as [fs1 r]. simpl.
  destruct (run_calls E fs1 cs) as [fs2 rs]. reflexivity.
Qed.

Lemma run_calls_other_paths (cs : list tool_call) : forall (fs : files) (path : string),
  ~ In path (saved_paths cs) ->
  fst (run_calls E fs cs) !! path = fs !! path.
Proof.
  induction cs as [|c cs IH]; intros fs path Hnot; [reflexivity|].
  rewrite run_calls_cons. cbn [fst].
  destruct c as [filename|data filename]; simpl in Hnot.
  - now apply IH.
  - rewrite IH by tauto. simpl.
    apply save_json_data_other_paths. intros ->. tauto.
Qed.

Lemma tool_calls_dom_subseteq (cs : list tool_call) : forall fs : files,
  dom fs ⊆ dom (fst (run_calls E fs cs)).
Proof.
  induction cs as [|c cs IH]; intros fs; [reflexivity|].
  rewrite run_calls_cons. cbn [fst].
  transitivity (dom (fst (run_call E fs c))); [|apply IH].
  destruct c as [filename|data filename]; simpl; [reflexivity|].
  rewrite save_json_data_result.
  destruct (open_refused E ModeW filename); simpl; [reflexivity|].
  rewrite dom_insert_L. apply union_subseteq_r.
Qed.

Lemma run_calls_content (cs : list tool_call) :
  forall (fs : files) (path content : string),
  fst (run_calls E fs cs) !! path = Some content ->
  fs !! path = Some content
  \/ exists data, In (Call_save_json_data data path) cs
       /\ content = json_dumps E (parsed_data E data).
Proof.
  induction cs as [|c cs IH]; intros fs path content Hin; [now left|].
  rewrite run_calls_cons in Hin. cbn [fst] in Hin.
  apply IH in Hin as [Hin|(data & Hdata & ->)].
  - destruct c as [filename|data filename]; simpl in Hin; [now left|].
    rewrite save_json_data_result in Hin.
    destruct (open_refused E ModeW filename); simpl in Hin; [now left|].
    destruct (decide (filename = path)) as [->|Hne].
    + rewrite lookup_insert_eq in Hin. injection Hin as <-.
      right. exists data. split; [now left | reflexivity].
    + rewrite lookup_insert_ne in Hin by exact Hne. now left.
  - right. exists data. split; [now right | reflexivity].
Qed.

Lemma is_pdf_name_spec (f : string) :
  is_pdf_name f = true <-> exists stem, Str.lower f = stem +:+ ".pdf".
Proof. apply StrFacts.endswith_spec. Qed.

End ToolFacts.

(** Helper lemmas on the sample reader and printer. *)
Module SampleFacts.
Import Sample.

Lemma to_list_concat (chunks : list string) :
  Str.to_list (Str.concat chunks) = List.concat (List.map Str.to_list chunks).
Proof.
  induction chunks as [|c chunks IH]; [reflexivity|].
  simpl. now rewrite StrFacts.to_list_app, IH.
Qed.

(** Reading back an escaped character. *)

Lemma read_string_escape_char (c : ascii) (tail acc : list ascii) :
  read_string (escape_char c ++ tail) acc = read_string tail (c :: acc).
Proof.
  destruct c as [[] [] [] [] [] [] [] []]; reflexivity.
Qed.

Lemma read_string_escaped (s : list ascii) : forall (tail acc : list ascii),
  read_string (List.concat (List.map escape_char s) ++ Str.dquote :: tail) acc
  = Some (Str.of_list (List.rev acc ++ s), tail).
Proof.
  induction s as [|c s IH]; intros tail acc; simpl.
  - now rewrite List.app_nil_r.
  - rewrite <- List.app_assoc, read_string_escape_char, IH.
    simpl. now rewrite <- List.app_assoc.
Qed.




(** The value of a decimal numeral read after [acc]. *)

Lemma read_digits_uint (d : Decimal.uint) : forall (tail : list ascii) (acc : Z) (cnt : nat),
  Core.read_digits (uint_chars d ++ tail) acc cnt
  = Core.read_digits tail (uint_value d acc) (Decimal.nb_digits d + cnt).
Proof.
  unfold uint_chars.
  induction d; intros tail acc cnt; simpl; try reflexivity;
    rewrite IHd; f_equal; lia.
Qed.

Lemma of_uint_acc_value (d : Decimal.uint) : forall acc : positive,
  Zpos (Pos.of_uint_acc d acc) = uint_value d (Zpos acc).
Proof.
  induction d; intros acc; simpl; try reflexivity; rewrite IHd; f_equal; lia.
Qed.

Lemma of_uint_value (d : Decimal.uint) : Z.of_N (Pos.of_uint d) = uint_value d 0.
Proof.
  induction d; simpl; try reflexivity; try exact IHd; apply of_uint_acc_value.
Qed.

Lemma to_uint_value (p : positive) : uint_value (Pos.to_uint p) 0 = Zpos p.
Proof.
  rewrite <- of_uint_value, DecimalPos.Unsigned.of_to. reflexivity.
Qed.

Lemma nzhead_head (d : Decimal.uint) :
  Decimal.nzhead d = Decimal.Nil \/ nonzero_head (Decimal.nzhead d).
Proof. induction d; simpl; auto. Qed.

Lemma to_uint_head (p : positive) : nonzero_head (Pos.to_uint p).
Proof.
  pose proof (DecimalPos.Unsigned.to_of (Pos.to_uint p)) as H.
  rewrite DecimalPos.Unsigned.of_to in H. simpl in H.
  pose proof (DecimalPos.Unsigned.to_uint_nonzero p) as Hnz.
  unfold Decimal.unorm in H.
  destruct (nzhead_head (Pos.to_uint p)) as [Hnil|Hhead].
  - rewrite Hnil in H. congruence.
  - destruct (Decimal.nzhead (Pos.to_uint p)) eqn:E; try contradiction;
      rewrite H; exact I.
Qed.




(** A character that ends an integer. *)

Lemma read_unsigned_uint (neg : bool) (d : Decimal.uint) (t : ascii) (tail : list ascii) :
  nonzero_head d \/ d = Decimal.D0 Decimal.Nil ->
  stops t ->
  read_unsigned neg (uint_chars d ++ t :: tail)
  = Some (PInt (if neg then - uint_value d 0 else uint_value d 0)%Z, t :: tail).
Proof.
  intros Hd (Hdig & Hdot & He & HE).
  unfold read_unsigned.
  rewrite read_digits_uint.
  assert (Hstop : forall v n, Core.read_digits (t :: tail) v n = (v, n, t :: tail)).
  { intros v n. simpl. now rewrite Hdig. }
  rewrite Hstop. cbv beta iota zeta.
  assert (Hlead :
    match uint_chars d ++ t :: tail with
    | c :: _ => Ascii.eqb c "0" && (1 <? Decimal.nb_digits d + 0)
    | [] => false
    end = false).
  { destruct Hd as [Hd| ->]; [destruct d; try contradiction; reflexivity | reflexivity]. }
  rewrite Hlead.
  assert (Hni : (Decimal.nb_digits d + 0 =? 0) = false).
  { destruct Hd as [Hd| ->]; [destruct d; try contradiction; reflexivity | reflexivity]. }
  rewrite Hni, Hdot. cbv beta iota zeta. cbn [orb andb].
  rewrite He, HE. cbn [orb negb]. reflexivity.
Qed.

Lemma read_number_int (z : Z) (t : ascii) (tail : list ascii) :
  stops t -> read_number (int_chars z ++ t :: tail) = Some (PInt z, t :: tail).
Proof.
  intros Ht. unfold int_chars, print_int.
  destruct z as [|p|p]; simpl Z.to_int.
  - change (Str.to_list (NilZero.string_of_int (Decimal.Pos Decimal.zero)))
      with (uint_chars (Decimal.D0 Decimal.Nil)).
    change (read_number (uint_chars (Decimal.D0 Decimal.Nil) ++ t :: tail))
      with (read_unsigned false (uint_chars (Decimal.D0 Decimal.Nil) ++ t :: tail)).
    rewrite read_unsigned_uint by (auto || exact Ht). reflexivity.
  - pose proof (to_uint_head p) as Hh.
    assert (Hs : Str.to_list (NilZero.string_of_int (Decimal.Pos (Pos.to_uint p)))
                 = uint_chars (Pos.to_uint p)).
    { unfold uint_chars. simpl. destruct (Pos.to_uint p); try reflexivity; contradiction. }
    rewrite Hs.
    assert (Hn : read_number (uint_chars (Pos.to_uint p) ++ t :: tail)
                 = read_unsigned false (uint_chars (Pos.to_uint p) ++ t :: tail)).
    { destruct (Pos.to_uint p); try contradiction; reflexivity. }
    rewrite Hn, read_unsigned_uint by (auto || exact Ht).
    now rewrite to_uint_value.
  - pose proof (to_uint_head p) as Hh.
    assert (Hs : Str.to_list (NilZero.string_of_int (Decimal.Neg (Pos.to_uint p)))
                 = "-"%char :: uint_chars (Pos.to_uint p)).
    { unfold uint_chars. simpl. destruct (Pos.to_uint p); try reflexivity; contradiction. }
    rewrite Hs.
    change (read_number (("-"%char :: uint_chars (Pos.to_uint p)) ++ t :: tail))
      with (read_unsigned true (uint_chars (Pos.to_uint p) ++ t :: tail)).
    rewrite read_unsigned_uint by (auto || exact Ht).
    now rewrite to_uint_value.
Qed.

Lemma int_chars_head (z : Z) :
  exists c r, int_chars z = c :: r /\ number_start c = true.
Proof.
  unfold int_chars, print_int.
  destruct z as [|p|p]; simpl Z.to_int.
  - eexists _, _. split; reflexivity.
  - pose proof (to_uint_head p) as Hh. simpl.
    destruct (Pos.to_uint p); try contradiction; eexists _, _; split; reflexivity.
  - eexists _, _. split; reflexivity.
Qed.

Lemma read_value_number_start (c : ascii) (r : list ascii) (fuel : nat) :
  number_start c = true -> read_value (S fuel) (c :: r) = read_number (c :: r).
Proof.
  destruct c as [[] [] [] [] [] [] [] []]; intros H; try discriminate H; reflexivity.
Qed.

Lemma skip_ws_number_start (c : ascii) (r : list ascii) :
  number_start c = true -> skip_ws (c :: r) = c :: r.
Proof.
  destruct c as [[] [] [] [] [] [] [] []]; intros H; try discriminate H; reflexivity.
Qed.

Lemma read_value_int (fuel : nat) (z : Z) (t : ascii) (tail : list ascii) :
  stops t ->
  read_value (S fuel) (skip_ws (" "%char :: int_chars z ++ t :: tail))
  = Some (PInt z, t :: tail).
Proof.
  intros Ht.
  change (skip_ws (" "%char :: ?l)) with (skip_ws l).
  pose proof (read_number_int z t tail Ht) as Hn.
  destruct (int_chars_head z) as (c & r & Hc & Hs).
  rewrite Hc in *. simpl app in *.
  rewrite skip_ws_number_start, read_value_number_start by exact Hs.
  exact Hn.
Qed.

Lemma read_members_unfold (fuel' : nat) (r0 : list ascii) (acc : list (string * pyval)) :
  read_members (S fuel') (Str.dquote :: r0) acc
  = match read_string r0 [] with
    | Some (k, r1) =>
        match skip_ws r1 with
        | c :: r2 =>
            if Ascii.eqb c ":" then
              match read_value fuel' (skip_ws r2) with
              | Some (v, r3) =>
                  match skip_ws r3 with
                  | c' :: r4 =>
                      if Ascii.eqb c' "," then
                        read_members fuel' (skip_ws r4) (dict_set k v acc)
                      else if Ascii.eqb c' "}" then
                        Some (PDict (dict_set k v acc), r4)
                      else None
                  | [] => None
                  end
              | None => None
              end
            else None
        | [] => None
        end
    | None => None
    end.
Proof. reflexivity. Qed.

Lemma read_value_object (fuel' : nat) (r : list ascii) :
  read_value (S fuel') ("{"%char :: r)
  = match skip_ws r with
    | c' :: r' =>
        if Ascii.eqb c' "}" then Some (PDict [], r')
        else read_members fuel' (c' :: r') []
    | [] => None
    end.
Proof. reflexivity. Qed.

Lemma stops_comma : stops ",".
Proof. repeat split. Qed.

Lemma stops_nl : stops nl_char.
Proof. repeat split. Qed.

Lemma members_chars_head (k : string) (z : Z) (more : list (string * Z)) (rest : list ascii) :
  exists r, members_chars ((k, z) :: more) rest = Str.dquote :: r.
Proof. eexists. reflexivity. Qed.

Lemma read_member (fuel : nat) (k : string) (z : Z) (t : ascii) (tail : list ascii)
  (acc : list (string * pyval)) :
  stops t ->
  read_members (S (S fuel)) (key_chars k ++ ":"%char :: " "%char :: int_chars z ++ t :: tail) acc
  = match skip_ws (t :: tail) with
    | c' :: r4 =>
        if Ascii.eqb c' "," then
          read_members (S fuel) (skip_ws r4) (dict_set k (PInt z) acc)
        else if Ascii.eqb c' "}" then
          Some (PDict (dict_set k (PInt z) acc), r4)
        else None
    | [] => None
    end.
Proof.
  intros Ht. unfold key_chars.
  change ((Str.dquote :: ?a ++ [Str.dquote]) ++ ?b)
    with (Str.dquote :: ((a ++ [Str.dquote]) ++ b)).
  rewrite <- List.app_assoc.
  change ([Str.dquote] ++ ?b) with (Str.dquote :: b).
  rewrite read_members_unfold, read_string_escaped.
  change (skip_ws (":"%char :: ?l)) with (":"%char :: l).
  cbv beta iota.
  change (Ascii.eqb ":" ":") with true. cbv beta iota.
  rewrite read_value_int by exact Ht.
  change (List.rev [] ++ ?l) with l.
  now rewrite StrFacts.of_to.
Qed.

Lemma read_members_chars (items : list (string * Z)) :
  forall (acc : list (string * pyval)) (fuel : nat) (rest : list ascii),
  items <> [] -> length items < fuel ->
  read_members fuel (members_chars items rest) acc
  = Some (PDict (set_all acc items), rest).
Proof.
  induction items as [|[k z] more IH]; intros acc fuel rest Hne Hfuel;
    [congruence|].
  destruct fuel as [|[|fuel]]; simpl in Hfuel; try lia.
  destruct more as [|[k' z'] more'].
  - change (members_chars [(k, z)] rest)
      with (key_chars k ++ ":"%char :: " "%char :: int_chars z ++
            nl_char :: "}"%char :: rest).
    rewrite read_member by exact stops_nl.
    reflexivity.
  - change (members_chars ((k, z) :: (k', z') :: more') rest)
      with (key_chars k ++ ":"%char :: " "%char :: int_chars z ++
            ","%char :: nl_char :: " "%char :: " "%char ::
            members_chars ((k', z') :: more') rest).
    rewrite read_member by exact stops_comma.
    destruct (members_chars_head k' z' more' rest) as [r Hr].
    rewrite Hr.
    change (skip_ws (","%char :: ?l)) with (","%char :: l).
    cbv beta iota. change (Ascii.eqb "," ",") with true. cbv beta iota.
    change (skip_ws (nl_char :: " "%char :: " "%char :: Str.dquote :: r))
      with (Str.dquote :: r).
    rewrite <- Hr. rewrite IH; [reflexivity | discriminate | simpl in *; lia].
Qed.

Lemma dict_set_fresh (k : string) (v : pyval) (acc : list (string * pyval)) :
  ~ In k (List.map fst acc) -> dict_set k v acc = acc ++ [(k, v)].
Proof.
  induction acc as [|[k' v'] acc IH]; simpl; intros Hk; [reflexivity|].
  destruct (String.eqb_spec k' k) as [->|_]; [tauto|].
  rewrite IH; [reflexivity | tauto].
Qed.

Lemma set_all_fresh (items : list (string * Z)) : forall acc : list (string * pyval),
  NoDup (List.map fst acc ++ List.map fst items) ->
  set_all acc items = acc ++ int_items items.
Proof.
  unfold set_all.
  induction items as [|[k z] items IH]; intros acc Hnd; simpl.
  - now rewrite List.app_nil_r.
  - rewrite dict_set_fresh.
    + rewrite IH.
      * now rewrite <- List.app_assoc.
      * rewrite List.map_app, <- List.app_assoc. exact Hnd.
    + simpl in Hnd. apply NoDup_app in Hnd as (_ & Hdisj & _).
      intros Hin. apply list_elem_of_In in Hin.
      apply (Hdisj k Hin). now left.
Qed.

Lemma members_chars_length (items : list (string * Z)) (rest : list ascii) :
  length items <= length (members_chars items rest).
Proof.
  induction items as [|[k z] more IH]; simpl; [lia|].
  rewrite !length_app. simpl. rewrite length_app.
  destruct more; simpl in *; lia.
Qed.

Lemma print_string_chars (k : string) : Str.to_list (print_string k) = key_chars k.
Proof. unfold print_string. now rewrite StrFacts.to_of. Qed.

Lemma members_text (items : list (string * Z)) : forall first : bool,
  items <> [] ->
  List.concat (List.map Str.to_list
    (encode_members (encode 1) ("," +:+ newline_indent 1) first (int_items items)
     ++ [newline_indent 0; "}"]))
  = (if first then [] else [","%char; nl_char; " "%char; " "%char])
    ++ members_chars items [].
Proof.
  induction items as [|[k z] more IH]; intros first Hne; [congruence|].
  change (int_items ((k, z) :: more)) with ((k, PInt z) :: int_items more).
  change (encode_members ?f ?sep first ((k, PInt z) :: ?l))
    with ((if first then [] else [sep])
          ++ print_string k :: ": " :: f (PInt z) ++ encode_members f sep false l).
  change (encode 1 (PInt z)) with [print_int z].
  rewrite <- !List.app_assoc, List.map_app, List.concat_app.
  f_equal; [destruct first; reflexivity|].
  cbn [List.map List.concat app].
  rewrite print_string_chars.
  change (Str.to_list ": ") with [":"%char; " "%char].
  change (Str.to_list (print_int z)) with (int_chars z).
  destruct more as [|[k' z'] more'].
  - reflexivity.
  - rewrite (IH false) by discriminate.
    change (members_chars ((k, z) :: (k', z') :: more') [])
      with (key_chars k ++ ":"%char :: " "%char :: int_chars z ++
            ","%char :: nl_char :: " "%char :: " "%char ::
            members_chars ((k', z') :: more') []).
    reflexivity.
Qed.

Lemma object_text (items : list (string * Z)) :
  items <> [] ->
  Str.to_list (json_dumps env (PDict (int_items items)))
  = "{"%char :: nl_char :: " "%char :: " "%char :: members_chars items [].
Proof.
  intros Hne. unfold json_dumps. rewrite to_list_concat.
  change (json_iterencode env) with (encode 0).
  destruct items as [|[k z] more]; [congruence|].
  change (encode 0 (PDict (int_items ((k, z) :: more))))
    with ("{" :: newline_indent 1 ::
          encode_members (encode 1) ("," +:+ newline_indent 1) true
            (int_items ((k, z) :: more))
          ++ [newline_indent 0; "}"]).
  cbn [List.map List.concat].
  rewrite members_text by discriminate.
  reflexivity.
Qed.

(** The sample reader reads back what the sample printer writes for a
    map from distinct names to integers. *)

Lemma sample_reads_back_object (items : list (string * Z)) :
  NoDup (List.map fst items) ->
  loads (json_dumps env (PDict (int_items items))) = Return (PDict (int_items items)).
Proof.
  intros Hnd.
  destruct items as [|kz more] eqn:E; [reflexivity|].
  rewrite <- E in *. assert (Hne : items <> []) by (rewrite E; discriminate).
  unfold loads. rewrite object_text by exact Hne.
  set (l := "{"%char :: nl_char :: " "%char :: " "%char :: members_chars items []).
  replace (2 * length l + 2) with (S (2 * length l + 1)) by lia.
  change (skip_ws l) with l. unfold l at 2.
  rewrite read_value_object.
  change (skip_ws (nl_char :: " "%char :: " "%char :: ?r)) with (skip_ws r).
  assert (Hhead : exists r, members_chars items [] = Str.dquote :: r).
  { rewrite E. destruct kz. apply members_chars_head. }
  destruct Hhead as [r Hr]. rewrite Hr.
  change (skip_ws (Str.dquote :: r)) with (Str.dquote :: r).
  cbv beta iota. change (Ascii.eqb Str.dquote "}") with false. cbv beta iota.
  rewrite <- Hr, read_members_chars.
  - change (skip_ws []) with (@nil ascii). cbv beta iota.
    rewrite set_all_fresh by exact Hnd. reflexivity.
  - exact Hne.
  - pose proof (members_chars_length items []) as Hlen.
    unfold l. simpl length. lia.
Qed.

End SampleFacts.

(** ** The claims of the specification *)

(** C1 (amended).  [save_json_data] writes the indented JSON text of the
    value straight into the destination: opening the destination empties
    it, and the chunks of the text are then appended to it.  No other
    path is written, so there is no temporary file and no rename; cut
    short after its first file operation the call leaves the destination
    holding the beginning of the text (nothing, at first), and once
    complete the destination holds the whole text. *)
Theorem save_json_data_writes_in_place
  (E : environment) (fs : files) (data : pyval) (filename : string) :
  match open_refused E ModeW filename with
  | Some e =>
      save_json_data E fs data filename = (fs, "Error saving data: " +:+ str e)
      /\ forall n, save_json_data_interrupted E n fs data filename = fs
  | None =>
      save_json_data E fs data filename
      = (<[filename := json_dumps E (parsed_data E data)]> fs,
         "Data saved successfully to " +:+ filename)
      /\ save_json_data_interrupted E 0 fs data filename = fs
      /\ forall n, save_json_data_interrupted E (S n) fs data filename
           = <[filename := Str.concat (take n (json_iterencode E (parsed_data E data)))]> fs
  end.
Proof.
  rewrite save_json_data_result.
  unfold save_json_data_interrupted, open_check.
  destruct (open_refused E ModeW filename) as [e|]; cbv [try_except bind].
  - split; [reflexivity | intros n; reflexivity].
  - split; [reflexivity|]. split; [reflexivity|].
    intros n. apply run_dump_ops_take.
Qed.

(** C1 (as stated) fails.  A destination that held ["old"] is empty when
    [save_json_data] is cut short after its first file operation, holds
    the beginning of the new text after the second, and holds the new
    text only when the call completes; no other path exists meanwhile.
    The write is not atomic. *)
Lemma save_json_data_not_atomic :
  save_json_data_interrupted Sample.env 1 {["out.json" := "old"]}
    (PList [PInt 1; PInt 2]) "out.json" !! "out.json"
  = Some ""
  /\ save_json_data_interrupted Sample.env 2 {["out.json" := "old"]}
       (PList [PInt 1; PInt 2]) "out.json" !! "out.json"
     = Some ("[" +:+ Str.nl +:+ "  1")
  /\ fst (save_json_data Sample.env {["out.json" := "old"]}
            (PList [PInt 1; PInt 2]) "out.json") !! "out.json"
     = Some ("[" +:+ Str.nl +:+ "  1," +:+ Str.nl +:+ "  2" +:+ Str.nl +:+ "]")
  /\ dom (save_json_data_interrupted Sample.env 1 {["out.json" := "old"]}
            (PList [PInt 1; PInt 2]) "out.json")
     = ({["out.json"]} : gset string)
  /\ ~ atomic_at
        (({["out.json" := "old"]} : files) !! "out.json")
        (save_json_data_interrupted Sample.env 1 {["out.json" := "old"]}
           (PList [PInt 1; PInt 2]) "out.json" !! "out.json")
        (fst (save_json_data Sample.env {["out.json" := "old"]}
                (PList [PInt 1; PInt 2]) "out.json") !! "out.json").
Proof.
  repeat split; try (vm_compute; reflexivity).
  intros [H|H]; vm_compute in H; discriminate H.
Qed.

(** C2 (amended).  [read_json_file] never raises and checks no shape: a
    file that opens and holds JSON of any kind, an array of objects or
    not, comes back as that value printed with indentation; a path that
    cannot be opened, a missing file and a text that is not JSON each
    come back as the text ["Error reading file: "] followed by the
    error. *)
Theorem read_json_file_never_raises
  (E : environment) (fs : files) (filename : string) :
  match open_refused E ModeR filename, fs !! filename with
  | Some e, _ =>
      read_json_file E fs filename = "Error reading file: " +:+ str e
  | None, None =>
      read_json_file E fs filename
      = "Error reading file: " +:+ str (file_not_found E filename)
  | None, Some content =>
      match json_loads E content with
      | Raise e => read_json_file E fs filename = "Error reading file: " +:+ str e
      | Return data =>
          read_json_file E fs filename = json_dumps E data
      end
  end.
Proof.
  unfold read_json_file, open_read, open_check.
  destruct (open_refused E ModeR filename) as [e|]; cbv [try_except bind];
    [reflexivity|].
  destruct (fs !! filename) as [content|]; [|reflexivity].
  destruct (json_loads E content) as [data|e]; [|reflexivity].
  reflexivity.
Qed.

(** C2 (as stated) fails.  The document [42] is not an array, and the
    document [[1]] is an array of a number; [read_json_file] returns
    both, printed again, as it returns any other document: nothing is
    raised, and what is returned is not even an error text. *)
Lemma read_json_file_accepts_any_document :
  (json_loads Sample.env "42" = Return (PInt 42)
   /\ array_of_objects (PInt 42) = false
   /\ read_json_file Sample.env {["extracted_receipts.json" := "42"]}
        "extracted_receipts.json" = "42"
   /\ Str.startswith
        (read_json_file Sample.env {["extracted_receipts.json" := "42"]}
           "extracted_receipts.json") "Error reading file: " = false)
  /\ (json_loads Sample.env "[1]" = Return (PList [PInt 1])
      /\ array_of_objects (PList [PInt 1]) = false
      /\ read_json_file Sample.env {["extracted_receipts.json" := "[1]"]}
           "extracted_receipts.json" = "[" +:+ Str.nl +:+ "  1" +:+ Str.nl +:+ "]"
      /\ Str.startswith
           (read_json_file Sample.env {["extracted_receipts.json" := "[1]"]}
              "extracted_receipts.json") "Error reading file: " = false).
Proof. repeat split; vm_compute; reflexivity. Qed.




(** The scenario of the specification: two receipts of Cafe A and one,
    without an amount, of Cafe B.  Its sums are exact in binary64
    too. *)
Example aggregate_scenario :
  List.map (fun '(k, v) => (k, this v))
    (Core.aggregate
      [ {| Core.company_name := "Cafe A"; Core.total_amount := Q2Qc 10 |};
        {| Core.company_name := "Cafe A"; Core.total_amount := Q2Qc 5 |};
        {| Core.company_name := "Cafe B"; Core.total_amount := 0%Qc |} ])
  = [("Cafe A", 15%Q); ("Cafe B", 0%Q)]
  /\ Core.aggregate
      [ {| Core.company_name := "Cafe A"; Core.total_amount := Core.Binary64.of_Q 10 |};
        {| Core.company_name := "Cafe A"; Core.total_amount := Core.Binary64.of_Q 5 |};
        {| Core.company_name := "Cafe B"; Core.total_amount := Core.Binary64.of_Q 0 |} ]
     = [("Cafe A", Core.Binary64.of_Q 15); ("Cafe B", Core.Binary64.of_Q 0)].
Proof. split; vm_compute; reflexivity. Qed.

(** C4.  [normalize] never raises.  An amount given as ["$12.50"] becomes
    12.50; an empty, missing or null amount, and a text that is no
    number, become 0; a missing company name and one that is not a
    string become the empty string. *)
Theorem normalize_safe_defaults (raw_record : list (string * pyval)) :
  exists r, Core.normalize raw_record = Return r
  /\ (dict_get "total_amount" raw_record = Some (PStr "$12.50") ->
      Core.total_amount r = Q2Qc (25 # 2))
  /\ (dict_get "total_amount" raw_record = Some (PStr "") ->
      Core.total_amount r = 0%Qc)
  /\ (dict_get "total_amount" raw_record = None -> Core.total_amount r = 0%Qc)
  /\ (dict_get "total_amount" raw_record = Some PNone -> Core.total_amount r = 0%Qc)
  /\ (forall s e, dict_get "total_amount" raw_record = Some (PStr s) ->
      Core.to_number (Core.strip_symbols (Str.strip s)) = Raise e ->
      Core.total_amount r = 0%Qc)
  /\ (dict_get "company_name" raw_record = None -> Core.company_name r = "")
  /\ (forall v, dict_get "company_name" raw_record = Some v ->
      (forall s, v <> PStr s) -> Core.company_name r = "").
Proof.
  eexists. split; [reflexivity|]. simpl.
  repeat split.
  - intros ->. apply Qc_is_canon. reflexivity.
  - intros ->. reflexivity.
  - intros ->. reflexivity.
  - intros ->. reflexivity.
  - intros s e -> H. simpl. now rewrite H.
  - intros ->. reflexivity.
  - intros v -> Hv. destruct v; try reflexivity. now destruct (Hv s).
Qed.

(** Amounts as the extraction may give them. *)
Example normalize_samples :
  List.map (fun v => this (Core.normalize_amount (Some v)))
    [PStr "$12.50"; PStr ""; PStr " 7 "; PStr "N/A"; PStr "-3.5 USD";
     PInt 5; PNone; PBool true]
  = [25 # 2; 0; 7; 0; -7 # 2; 5; 0; 0]%Q.
Proof. reflexivity. Qed.

(** C5 (amended).  In the code the aggregation is done by an agent that
    holds the two file tools [read_json_file] and [save_json_data].
    Whatever calls it makes with them, and in whatever order: a file
    that no call of [save_json_data] names is left as it was, so calls
    of [read_json_file] alone change nothing; no file is removed; and a
    file that has changed holds the JSON text of the data of a call of
    [save_json_data] that names it. *)
Theorem aggregation_agent_file_effects
  (E : environment) (cs : list tool_call) (fs : files) :
  Forall (fun c => In (tool_of c) aggregation_agent_tools) cs
  /\ (forall path, ~ In path (saved_paths cs) ->
      fst (run_calls E fs cs) !! path = fs !! path)
  /\ (saved_paths cs = [] -> fst (run_calls E fs cs) = fs)
  /\ dom fs ⊆ dom (fst (run_calls E fs cs))
  /\ (forall path content,
      fst (run_calls E fs cs) !! path = Some content ->
      fs !! path = Some content
      \/ exists data, In (Call_save_json_data data path) cs
           /\ content = json_dumps E (parsed_data E data)).
Proof.
  split; [|split; [|split; [|split]]].
  - apply Forall_forall. intros c _.
    destruct c; unfold aggregation_agent_tools; simpl; tauto.
  - intros path. apply run_calls_other_paths.
  - intros Hnone. apply map_eq. intros path.
    apply run_calls_other_paths. rewrite Hnone. intros [].
  - apply tool_calls_dom_subseteq.
  - apply run_calls_content.
Qed.

(** C5 (as stated) fails.  The aggregation agent is given the two file
    tools: a call of the one creates a file, and what a call of the
    other returns is the content of a file. *)
Lemma aggregation_agent_reads_and_writes_files :
  aggregation_agent_tools = [Read_json_file; Save_json_data]
  /\ tool_of (Call_save_json_data (PDict []) "aggregated_receipts.json") = Save_json_data
  /\ (∅ : files) !! "aggregated_receipts.json" = None
  /\ fst (run_calls Sample.env ∅
            [Call_save_json_data (PDict []) "aggregated_receipts.json"])
       !! "aggregated_receipts.json"
     = Some "{}"
  /\ tool_of (Call_read_json_file "extracted_receipts.json") = Read_json_file
  /\ snd (run_calls Sample.env {["extracted_receipts.json" := "[]"]}
            [Call_read_json_file "extracted_receipts.json"])
     = ["[]"]
  /\ snd (run_calls Sample.env {["extracted_receipts.json" := "[7]"]}
            [Call_read_json_file "extracted_receipts.json"])
     = ["[" +:+ Str.nl +:+ "  7" +:+ Str.nl +:+ "]"].
Proof. repeat split; vm_compute; reflexivity. Qed.

(** C6.  A map saved with [save_json_data] and read back with
    [read_json_file] from the same path comes back as the JSON text of
    the same map: whenever the JSON library reads back what it printed
    for the map (number formatting apart), reading the text returned
    gives the map, with every key and value. *)
Theorem save_then_read_round_trips
  (E : environment) (fs : files) (items : list (string * pyval)) (filename : string) :
  open_refused E ModeW filename = None ->
  open_refused E ModeR filename = None ->
  json_loads E (json_dumps E (PDict items)) = Return (PDict items) ->
  read_json_file E (fst (save_json_data E fs (PDict items) filename)) filename
  = json_dumps E (PDict items)
  /\ json_loads E
       (read_json_file E (fst (save_json_data E fs (PDict items) filename)) filename)
     = Return (PDict items).
Proof.
  intros Hw Hr Hlib.
  assert (Hread :
    read_json_file E (fst (save_json_data E fs (PDict items) filename)) filename
    = json_dumps E (PDict items)).
  { rewrite read_after_save by assumption.
    change (parsed_data E (PDict items)) with (PDict items).
    now rewrite Hlib. }
  split; [exact Hread | now rewrite Hread].
Qed.

Lemma save_then_read_round_trips_witness :
  open_refused Sample.env ModeW "aggregated_receipts.json" = None
  /\ open_refused Sample.env ModeR "aggregated_receipts.json" = None
  /\ json_loads Sample.env
       (json_dumps Sample.env (PDict [("Cafe A", PInt 15); ("Cafe B", PInt 0)]))
     = Return (PDict [("Cafe A", PInt 15); ("Cafe B", PInt 0)])
  /\ json_loads Sample.env
       (read_json_file Sample.env
          (fst (save_json_data Sample.env ∅
                  (PDict [("Cafe A", PInt 15); ("Cafe B", PInt 0)])
                  "aggregated_receipts.json"))
          "aggregated_receipts.json")
     = Return (PDict [("Cafe A", PInt 15); ("Cafe B", PInt 0)]).
Proof.
  split; [reflexivity|]. split; [reflexivity|]. split; [vm_compute; reflexivity|].
  apply (save_then_read_round_trips Sample.env ∅
           [("Cafe A", PInt 15); ("Cafe B", PInt 0)] "aggregated_receipts.json");
    vm_compute; reflexivity.
Defined.

(** With the sample library the premise holds for every map from
    distinct names to integers: such a map always comes back. *)
Corollary sample_save_then_read_round_trips
  (fs : files) (items : list (string * Z)) (filename : string) :
  NoDup (List.map fst items) ->
  filename <> "" ->
  json_loads Sample.env
    (read_json_file Sample.env
       (fst (save_json_data Sample.env fs (PDict (Sample.int_items items)) filename))
       filename)
  = Return (PDict (Sample.int_items items)).
Proof.
  intros Hnd Hname.
  assert (Hopen : forall mode, open_refused Sample.env mode filename = None).
  { intros mode. simpl. unfold Sample.refused.
    destruct (String.eqb_spec filename ""); [contradiction | reflexivity]. }
  rewrite read_after_save by apply Hopen.
  change (parsed_data Sample.env (PDict (Sample.int_items items)))
    with (PDict (Sample.int_items items)).
  change (json_loads Sample.env) with Sample.loads.
  rewrite SampleFacts.sample_reads_back_object by exact Hnd.
  cbv [bind try_except].
  now apply SampleFacts.sample_reads_back_object.
Qed.




(** The order of the keys does depend on the order of the input. *)
Example aggregate_key_order :
  Core.keys (Core.aggregate
    [ {| Core.company_name := "Cafe A"; Core.total_amount := 1%Qc |};
      {| Core.company_name := "Cafe B"; Core.total_amount := 1%Qc |} ])
  = ["Cafe A"; "Cafe B"]
  /\ Core.keys (Core.aggregate
    [ {| Core.company_name := "Cafe B"; Core.total_amount := 1%Qc |};
      {| Core.company_name := "Cafe A"; Core.total_amount := 1%Qc |} ])
  = ["Cafe B"; "Cafe A"].
Proof. split; reflexivity. Qed.

(** C8.  [extract_text_from_pdf] never raises.  When the document cannot
    be opened, or a page fails, it returns the text
    ["Error reading PDF: "] followed by the error; otherwise it returns
    the texts of the pages that have one, joined by line feeds, without
    leading and trailing whitespace.  Both outcomes are plain strings. *)
Theorem extract_text_from_pdf_never_raises (E : environment) (pdf_path : string) :
  match pdfplumber_open E pdf_path with
  | Raise e =>
      extract_text_from_pdf E pdf_path = "Error reading PDF: " +:+ str e
      /\ Str.startswith (extract_text_from_pdf E pdf_path) "Error reading PDF: " = true
  | Return pages =>
      match first_error pages with
      | Some e =>
          extract_text_from_pdf E pdf_path = "Error reading PDF: " +:+ str e
          /\ Str.startswith (extract_text_from_pdf E pdf_path) "Error reading PDF: " = true
      | None =>
          extract_text_from_pdf E pdf_path
          = Str.strip (Str.join Str.nl (page_texts pages))
      end
  end.
Proof.
  unfold extract_text_from_pdf.
  destruct (pdfplumber_open E pdf_path) as [pages|e]; cbv [try_except bind].
  - rewrite pages_loop_spec. destruct (first_error pages) as [e|].
    + split; [reflexivity | apply StrFacts.startswith_app].
    + change ("" +:+ ?x) with x. apply StrFacts.strip_lines.
  - split; [reflexivity | apply StrFacts.startswith_app].
Qed.

(** X3.  An error and an extracted text cannot be told apart by the
    caller: a document whose only page reads like the error message
    gives the very same string. *)
Lemma extract_text_from_pdf_error_like_text
  (E : environment) (failing readable : string) (e : exn) :
  pdfplumber_open E failing = Raise e ->
  pdfplumber_open E readable = Return [Return (Some ("Error reading PDF: " +:+ str e))] ->
  Str.strip ("Error reading PDF: " +:+ str e) = "Error reading PDF: " +:+ str e ->
  extract_text_from_pdf E readable = extract_text_from_pdf E failing.
Proof.
  intros Hf Hr Hs. unfold extract_text_from_pdf. rewrite Hf, Hr.
  cbv [try_except bind pages_loop].
  change ("Error reading PDF: " +:+ str e)
    with (String "E" ("rror reading PDF: " +:+ str e)) at 1.
  cbv iota beta. change ("" +:+ ?x) with x.
  rewrite StrFacts.strip_app_nl. exact Hs.
Qed.

Example extract_text_from_pdf_samples :
  extract_text_from_pdf Sample.env "receipts/cafe.pdf"
  = "Cafe A" +:+ Str.nl +:+ "Total 10.00"
  /\ extract_text_from_pdf Sample.env "receipts/scan.pdf" = ""
  /\ extract_text_from_pdf Sample.env "receipts/none.pdf"
     = "Error reading PDF: [Errno 2] No such file or directory: 'receipts/none.pdf'".
Proof. repeat split; vm_compute; reflexivity. Qed.

(** C9.  Given a string, [save_json_data] writes the value the string
    parses to when it is valid JSON, and the string itself, as a JSON
    string, only when parsing fails. *)
Theorem save_json_data_parses_string_argument
  (E : environment) (fs : files) (s filename : string) :
  open_refused E ModeW filename = None ->
  fst (save_json_data E fs (PStr s) filename) !! filename
  = Some (json_dumps E
            match json_loads E s with
            | Return v => v
            | Raise _ => PStr s
            end).
Proof.
  intros Hw.
  rewrite save_json_data_result, Hw. simpl.
  rewrite lookup_insert_eq. unfold parsed_data, try_except.
  destruct (json_loads E s); reflexivity.
Qed.

Lemma save_json_data_parses_string_argument_witness :
  open_refused Sample.env ModeW "out.json" = None
  /\ fst (save_json_data Sample.env ∅ (PStr "[1, 2]") "out.json") !! "out.json"
     = Some (json_dumps Sample.env
               match json_loads Sample.env "[1, 2]" with
               | Return v => v
               | Raise _ => PStr "[1, 2]"
               end).
Proof.
  split; [reflexivity|].
  apply (save_json_data_parses_string_argument Sample.env ∅ "[1, 2]" "out.json").
  reflexivity.
Defined.

(** The string ["42"] is saved as the number 42, the string ["[1, 2]"] as
    an array, and the string ["hello"], which is not JSON, as a string. *)
Example save_json_data_on_strings :
  fst (save_json_data Sample.env ∅ (PStr "42") "out.json") !! "out.json"
  = Some "42"
  /\ fst (save_json_data Sample.env ∅ (PStr "[1, 2]") "out.json") !! "out.json"
     = Some ("[" +:+ Str.nl +:+ "  1," +:+ Str.nl +:+ "  2" +:+ Str.nl +:+ "]")
  /\ fst (save_json_data Sample.env ∅ (PStr "hello") "out.json") !! "out.json"
     = Some (String Str.dquote "hello" +:+ String Str.dquote "").
Proof. repeat split; vm_compute; reflexivity. Qed.

Lemma is_pdf_name_last (stem : string) (c : ascii) :
  is_pdf_name (stem +:+ String c "") = true -> Str.lower_char c = "f"%char.
Proof.
  unfold is_pdf_name, Str.endswith, Str.lower.
  rewrite StrFacts.to_of, StrFacts.to_list_app, List.map_app, List.rev_app_distr.
  change (Str.to_list (String c "")) with [c].
  change (Str.to_list ".pdf") with ["."; "p"; "d"; "f"]%char.
  cbn [List.map List.rev app Str.prefix_list].
  destruct (Ascii.eqb_spec "f" (Str.lower_char c)) as [Heq|_];
    [intros _; now symmetry | discriminate].
Qed.

Lemma is_pdf_name_quoted (stem : string) :
  is_pdf_name (stem +:+ "'") = false.
Proof.
  destruct (is_pdf_name (stem +:+ "'")) eqn:Hpdf; [|reflexivity].
  apply is_pdf_name_last in Hpdf. discriminate Hpdf.
Qed.

(** C10 (amended).  [list_pdf_files] returns, in the order of the
    directory, exactly the entries whose lower-cased name ends with
    [.pdf].  It never raises: when the directory cannot be listed it
    returns a list of one string, ["Error listing files: "] followed by
    the error.  That string does not end in [.pdf] when the error ends
    with a quoted path, as the errors of the operating system do; the
    result is then the listing of no directory, and a directory that
    holds a single file of that name lists as empty. *)
Theorem list_pdf_files_never_raises (E : environment) (directory : string) :
  match os_listdir E directory with
  | Return names =>
      list_pdf_files E directory = List.filter is_pdf_name names
      /\ forall f, In f (list_pdf_files E directory)
           <-> In f names /\ exists stem, Str.lower f = stem +:+ ".pdf"
  | Raise e =>
      list_pdf_files E directory = ["Error listing files: " +:+ str e]
      /\ (forall stem, str e = stem +:+ "'" ->
          is_pdf_name ("Error listing files: " +:+ str e) = false)
      /\ (is_pdf_name ("Error listing files: " +:+ str e) = false ->
          forall other names, os_listdir E other = Return names ->
          list_pdf_files E other <> list_pdf_files E directory)
      /\ (is_pdf_name ("Error listing files: " +:+ str e) = false ->
          forall other,
          os_listdir E other = Return ["Error listing files: " +:+ str e] ->
          list_pdf_files E other = [])
  end.
Proof.
  unfold list_pdf_files.
  destruct (os_listdir E directory) as [names|e]; cbv [try_except bind].
  - split; [reflexivity|]. intros f.
    rewrite filter_In, is_pdf_name_spec. reflexivity.
  - split; [reflexivity|]. split; [|split].
    + intros stem ->. rewrite <- StrFacts.app_assoc. apply is_pdf_name_quoted.
    + intros Hno other names ->. intros Heq.
      assert (Hin : In ("Error listing files: " +:+ str e)
                      (List.filter is_pdf_name names)).
      { rewrite Heq. now left. }
      apply filter_In in Hin as [_ Hyes]. congruence.
    + intros Hno other ->.
      change (List.filter is_pdf_name [?x]) with (if is_pdf_name x then [x] else []).
      now rewrite Hno.
Qed.

(** C10 (as stated) fails.  Listing the missing directory [missing]
    gives one string, the report of the error; a directory that holds a
    single file of that name lists as empty, because the name does not
    end in [.pdf]. *)
Lemma list_pdf_files_failure_is_told_apart :
  os_listdir Echo.env "missing" = Raise (Sample.no_such_file "missing")
  /\ list_pdf_files Echo.env "missing"
     = ["Error listing files: [Errno 2] No such file or directory: 'missing'"]
  /\ os_listdir Echo.env "mirror"
     = Return ["Error listing files: [Errno 2] No such file or directory: 'missing'"]
  /\ list_pdf_files Echo.env "mirror" = [].
Proof. repeat split; vm_compute; reflexivity. Qed.

Example list_pdf_files_samples :
  list_pdf_files Sample.env "receipts" = ["cafe.pdf"; "SCAN.PDF"]
  /\ list_pdf_files Sample.env "missing"
     = ["Error listing files: [Errno 2] No such file or directory: 'missing'"].
Proof. split; vm_compute; reflexivity. Qed.

(** ** More properties of the tools *)

(** Helper lemmas on stripping and on lower case. *)
Module MoreStrFacts.
Import Str.

Lemma lstrip_list_blank (l : list ascii) :
  forallb is_space l = true -> lstrip_list l = [].
Proof.
  induction l as [|c l IH]; simpl; [reflexivity|].
  intros H. apply andb_prop in H as [Hc Hl]. rewrite Hc. auto.
Qed.

Lemma strip_blank (s : string) : forallb is_space (to_list s) = true -> strip s = "".
Proof. intros H. unfold strip. now rewrite lstrip_list_blank. Qed.

Lemma join_blank (ts : list string) :
  Forall (fun t => forallb is_space (to_list t) = true) ts ->
  forallb is_space (to_list (join nl ts)) = true.
Proof.
  induction 1 as [|t ts Ht Hts IH]; [reflexivity|].
  destruct ts as [|t' ts]; [exact Ht|].
  change (join nl (t :: t' :: ts)) with (t +:+ nl +:+ join nl (t' :: ts)).
  rewrite !StrFacts.to_list_app, !forallb_app, Ht, IH. reflexivity.
Qed.

Lemma lstrip_list_solid (l : list ascii) : starts_solid (lstrip_list l).
Proof.
  induction l as [|c l IH]; simpl; [exact I|].
  destruct (is_space c) eqn:E; [exact IH | exact E].
Qed.

Lemma lstrip_list_fixed (l : list ascii) : starts_solid l -> lstrip_list l = l.
Proof. destruct l as [|c l]; simpl; [reflexivity|]. now intros ->. Qed.

Lemma lstrip_list_idem (l : list ascii) : lstrip_list (lstrip_list l) = lstrip_list l.
Proof. apply lstrip_list_fixed, lstrip_list_solid. Qed.

Lemma lstrip_list_keeps_last (l : list ascii) (c : ascii) :
  is_space c = false -> exists l', lstrip_list (l ++ [c]) = l' ++ [c].
Proof.
  intros Hc. induction l as [|a l IH]; simpl.
  - rewrite Hc. now exists [].
  - destruct (is_space a); [exact IH | now exists (a :: l)].
Qed.

Lemma rstrip_list_solid (l : list ascii) : starts_solid l -> starts_solid (rstrip_list l).
Proof.
  destruct l as [|c l]; [intros _; exact I|]. simpl. intros Hc.
  unfold rstrip_list. simpl List.rev.
  destruct (lstrip_list_keeps_last (List.rev l) c Hc) as [l' ->].
  rewrite rev_app_distr. simpl. exact Hc.
Qed.

Lemma rstrip_list_idem (l : list ascii) : rstrip_list (rstrip_list l) = rstrip_list l.
Proof.
  unfold rstrip_list. now rewrite rev_involutive, lstrip_list_idem.
Qed.

Lemma strip_idem (s : string) : strip (strip s) = strip s.
Proof.
  unfold strip. rewrite StrFacts.to_of. f_equal.
  rewrite lstrip_list_fixed.
  - apply rstrip_list_idem.
  - apply rstrip_list_solid, lstrip_list_solid.
Qed.

Lemma lower_char_dot (c : ascii) : lower_char c = "."%char -> c = "."%char.
Proof.
  destruct c as [[] [] [] [] [] [] [] []]; intros H; vm_compute in H;
    try discriminate H; reflexivity.
Qed.

Lemma lower_char_letter (c x : ascii) :
  (97 <=? nat_of_ascii x) && (nat_of_ascii x <=? 122) = true ->
  lower_char c = x -> c = x \/ c = ascii_of_nat (nat_of_ascii x - 32).
Proof.
  intros Hx H. unfold lower_char in H.
  destruct ((65 <=? nat_of_ascii c) && (nat_of_ascii c <=? 90)) eqn:E.
  - right. subst x. rewrite nat_ascii_embedding.
    + replace (nat_of_ascii c + 32 - 32) with (nat_of_ascii c) by lia.
      now rewrite ascii_nat_embedding.
    + apply andb_prop in E as [_ E]. apply Nat.leb_le in E. lia.
  - now left.
Qed.

Lemma lower_char_of_letter (c x : ascii) :
  (97 <=? nat_of_ascii x) && (nat_of_ascii x <=? 122) = true ->
  c = x \/ c = ascii_of_nat (nat_of_ascii x - 32) -> lower_char c = x.
Proof.
  intros Hx [->| ->].
  - unfold lower_char.
    apply andb_prop in Hx as [H1 H2]. apply Nat.leb_le in H1.
    destruct ((65 <=? nat_of_ascii x) && (nat_of_ascii x <=? 90)) eqn:E; [|reflexivity].
    apply andb_prop in E as [_ E]. apply Nat.leb_le in E. lia.
  - apply andb_prop in Hx as [H1 H2]. apply Nat.leb_le in H1, H2.
    unfold lower_char. rewrite nat_ascii_embedding by lia.
    replace ((65 <=? nat_of_ascii x - 32) && (nat_of_ascii x - 32 <=? 90)) with true.
    + replace (nat_of_ascii x - 32 + 32) with (nat_of_ascii x) by lia.
      apply ascii_nat_embedding.
    + symmetry. apply andb_true_intro. split; apply Nat.leb_le; lia.
Qed.

Lemma concat_take_prefix (chunks : list string) (n : nat) :
  startswith (concat chunks) (concat (take n chunks)) = true.
Proof.
  rewrite <- (take_drop n chunks) at 1.
  rewrite StrFacts.concat_app. apply StrFacts.startswith_app.
Qed.

End MoreStrFacts.

(** X1.  A document that opens and whose pages all read without error
    but hold nothing but whitespace, or no text at all, gives the empty
    string: no error is reported for it. *)
Theorem extract_text_from_pdf_blank_document
  (E : environment) (pdf_path : string) (pages : list (outcome (option string))) :
  pdfplumber_open E pdf_path = Return pages ->
  first_error pages = None ->
  Forall (fun t => blank t = true) (page_texts pages) ->
  extract_text_from_pdf E pdf_path = "".
Proof.
  intros Hopen Herr Hblank. unfold extract_text_from_pdf.
  rewrite Hopen. cbv [try_except bind].
  rewrite pages_loop_spec, Herr.
  change ("" +:+ ?x) with x. rewrite StrFacts.strip_lines.
  apply MoreStrFacts.strip_blank, MoreStrFacts.join_blank, Hblank.
Qed.

Lemma extract_text_from_pdf_blank_document_witness :
  pdfplumber_open Sample.env "receipts/scan.pdf" = Return [Return None]
  /\ first_error [Return None] = None
  /\ Forall (fun t => blank t = true) (page_texts [Return None])
  /\ extract_text_from_pdf Sample.env "receipts/scan.pdf" = "".
Proof.
  split; [reflexivity|]. split; [reflexivity|]. split; [constructor|].
  apply (extract_text_from_pdf_blank_document Sample.env "receipts/scan.pdf"
           [Return None]); [reflexivity | reflexivity | constructor].
Defined.

(** X2.  The text extracted from a document that opens and whose pages
    all read without error is already stripped: stripping it again
    changes nothing. *)
Theorem extract_text_from_pdf_is_stripped
  (E : environment) (pdf_path : string) (pages : list (outcome (option string))) :
  pdfplumber_open E pdf_path = Return pages ->
  first_error pages = None ->
  Str.strip (extract_text_from_pdf E pdf_path) = extract_text_from_pdf E pdf_path.
Proof.
  intros Hopen Herr. unfold extract_text_from_pdf.
  rewrite Hopen. cbv [try_except bind].
  rewrite pages_loop_spec, Herr.
  apply MoreStrFacts.strip_idem.
Qed.

Lemma extract_text_from_pdf_is_stripped_witness :
  pdfplumber_open Sample.env "receipts/cafe.pdf"
  = Return [Return (Some "Cafe A"); Return (Some ""); Return (Some "Total 10.00 ")]
  /\ first_error [Return (Some "Cafe A"); Return (Some ""); Return (Some "Total 10.00 ")]
     = None
  /\ Str.strip (extract_text_from_pdf Sample.env "receipts/cafe.pdf")
     = extract_text_from_pdf Sample.env "receipts/cafe.pdf".
Proof.
  split; [reflexivity|]. split; [reflexivity|].
  apply (extract_text_from_pdf_is_stripped Sample.env "receipts/cafe.pdf"
           [Return (Some "Cafe A"); Return (Some ""); Return (Some "Total 10.00 ")]);
    reflexivity.
Defined.

(** X3 (witness).  In [Echo.env] the document ["echo.pdf"] reads like
    the error of opening ["missing.pdf"]. *)
Lemma extract_text_from_pdf_error_like_text_witness :
  pdfplumber_open Echo.env "missing.pdf" = Raise (Sample.no_such_file "missing.pdf")
  /\ extract_text_from_pdf Echo.env "echo.pdf"
     = extract_text_from_pdf Echo.env "missing.pdf".
Proof.
  split; [reflexivity|].
  apply (extract_text_from_pdf_error_like_text Echo.env "missing.pdf" "echo.pdf"
           (Sample.no_such_file "missing.pdf")); vm_compute; reflexivity.
Defined.

(** X4.  A save overwrites: after two saves to the same file the files
    are what the second save alone would have left. *)
Theorem save_json_data_last_write_wins
  (E : environment) (fs : files) (first second : pyval) (filename : string) :
  fst (save_json_data E (fst (save_json_data E fs first filename)) second filename)
  = fst (save_json_data E fs second filename).
Proof.
  rewrite !save_json_data_result.
  destruct (open_refused E ModeW filename); simpl; [reflexivity|].
  apply insert_insert_eq.
Qed.

(** X5.  Saves to two different files can be made in either order. *)
Theorem save_json_data_commutes
  (E : environment) (fs : files) (d1 d2 : pyval) (f1 f2 : string) :
  f1 <> f2 ->
  fst (save_json_data E (fst (save_json_data E fs d1 f1)) d2 f2)
  = fst (save_json_data E (fst (save_json_data E fs d2 f2)) d1 f1).
Proof.
  intros Hne. rewrite !save_json_data_result.
  destruct (open_refused E ModeW f1), (open_refused E ModeW f2); simpl;
    try reflexivity.
  now apply insert_insert_ne.
Qed.

Lemma save_json_data_commutes_witness :
  "extracted_receipts.json" <> "aggregated_receipts.json"
  /\ fst (save_json_data Sample.env
            (fst (save_json_data Sample.env ∅ (PList []) "extracted_receipts.json"))
            (PDict []) "aggregated_receipts.json")
     = fst (save_json_data Sample.env
              (fst (save_json_data Sample.env ∅ (PDict []) "aggregated_receipts.json"))
              (PList []) "extracted_receipts.json").
Proof.
  split; [discriminate|].
  apply (save_json_data_commutes Sample.env ∅ (PList []) (PDict [])
           "extracted_receipts.json" "aggregated_receipts.json").
  discriminate.
Defined.

(** X6.  Whatever calls the aggregation agent makes with its two tools,
    and in whatever order, a file that no save names is left as it
    was. *)
Theorem tool_calls_keep_other_files
  (E : environment) (cs : list tool_call) (fs : files) (path : string) :
  ~ In path (saved_paths cs) ->
  fst (run_calls E fs cs) !! path = fs !! path.
Proof.
  revert fs. induction cs as [|c cs IH]; intros fs Hnot; [reflexivity|].
  rewrite run_calls_cons. cbn [fst].
  destruct c as [filename|data filename]; simpl in Hnot.
  - now apply IH.
  - rewrite IH by tauto. simpl.
    apply save_json_data_other_paths. intros ->. tauto.
Qed.

Lemma tool_calls_keep_other_files_witness :
  ~ In "extracted_receipts.json" (saved_paths [Call_read_json_file "extracted_receipts.json";
     Call_save_json_data (PDict []) "aggregated_receipts.json"])
  /\ fst (run_calls Sample.env {["extracted_receipts.json" := "[]"]}
            [Call_read_json_file "extracted_receipts.json";
     Call_save_json_data (PDict []) "aggregated_receipts.json"]) !! "extracted_receipts.json"
     = ({["extracted_receipts.json" := "[]"]} : files) !! "extracted_receipts.json".
Proof.
  assert (H : ~ In "extracted_receipts.json"
                (saved_paths [Call_read_json_file "extracted_receipts.json";
     Call_save_json_data (PDict []) "aggregated_receipts.json"])).
  { simpl. intros [H|[]]. discriminate H. }
  split; [exact H|].
  apply (tool_calls_keep_other_files Sample.env [Call_read_json_file "extracted_receipts.json";
     Call_save_json_data (PDict []) "aggregated_receipts.json"]
           {["extracted_receipts.json" := "[]"]} "extracted_receipts.json" H).
Defined.

(** X7.  The two tools never remove a file: every path that exists
    before a list of calls exists after it. *)
Theorem tool_calls_never_delete
  (E : environment) (cs : list tool_call) (fs : files) (path : string) :
  is_Some (fs !! path) ->
  is_Some (fst (run_calls E fs cs) !! path).
Proof.
  rewrite <- !elem_of_dom. apply tool_calls_dom_subseteq.
Qed.

Lemma tool_calls_never_delete_witness :
  is_Some (({["extracted_receipts.json" := "[]"]} : files) !! "extracted_receipts.json")
  /\ is_Some (fst (run_calls Sample.env {["extracted_receipts.json" := "[]"]}
                     [Call_read_json_file "extracted_receipts.json";
     Call_save_json_data (PDict []) "aggregated_receipts.json"]) !! "extracted_receipts.json").
Proof.
  assert (H : is_Some (({["extracted_receipts.json" := "[]"]} : files)
                         !! "extracted_receipts.json")).
  { exists "[]". reflexivity. }
  split; [exact H|].
  exact (tool_calls_never_delete Sample.env [Call_read_json_file "extracted_receipts.json";
     Call_save_json_data (PDict []) "aggregated_receipts.json"]
           {["extracted_receipts.json" := "[]"]} "extracted_receipts.json" H).
Defined.

(** X8.  However early [save_json_data] is cut short after opening its
    destination, the destination holds a beginning of the text that the
    complete call writes; once every chunk has been written it holds
    the whole text. *)
Theorem save_json_data_interrupted_progress
  (E : environment) (fs : files) (data : pyval) (filename : string) (n : nat) :
  open_refused E ModeW filename = None ->
  (exists part,
     save_json_data_interrupted E (S n) fs data filename !! filename = Some part
     /\ Str.startswith (json_dumps E (parsed_data E data)) part = true)
  /\ (length (json_iterencode E (parsed_data E data)) <= n ->
      save_json_data_interrupted E (S n) fs data filename
      = fst (save_json_data E fs data filename)).
Proof.
  intros Hw.
  assert (Hint : save_json_data_interrupted E (S n) fs data filename
    = <[filename := Str.concat (take n (json_iterencode E (parsed_data E data)))]> fs).
  { unfold save_json_data_interrupted, open_check. rewrite Hw.
    cbv [try_except bind]. apply run_dump_ops_take. }
  split.
  - exists (Str.concat (take n (json_iterencode E (parsed_data E data)))).
    rewrite Hint, lookup_insert_eq. split; [reflexivity|].
    apply MoreStrFacts.concat_take_prefix.
  - intros Hlen. rewrite Hint, save_json_data_result, Hw. simpl.
    now rewrite take_ge.
Qed.

Lemma save_json_data_interrupted_progress_witness :
  open_refused Sample.env ModeW "out.json" = None
  /\ exists part,
       save_json_data_interrupted Sample.env 2 {["out.json" := "old"]}
         (PList [PInt 1; PInt 2]) "out.json" !! "out.json" = Some part
       /\ Str.startswith
            (json_dumps Sample.env (parsed_data Sample.env (PList [PInt 1; PInt 2])))
            part = true.
Proof.
  split; [reflexivity|].
  apply (save_json_data_interrupted_progress Sample.env {["out.json" := "old"]}
           (PList [PInt 1; PInt 2]) "out.json" 1).
  reflexivity.
Defined.

(** X9.  Passing on what [read_json_file] returned to [save_json_data]
    copies the document: when the source holds JSON that the library
    reads back as it prints it, the target file ends up holding exactly
    the text that was read. *)
Theorem read_then_save_copies
  (E : environment) (fs : files) (source target content : string) (v : pyval) :
  open_refused E ModeR source = None ->
  fs !! source = Some content ->
  json_loads E content = Return v ->
  json_loads E (json_dumps E v) = Return v ->
  open_refused E ModeW target = None ->
  save_json_data E fs (PStr (read_json_file E fs source)) target
  = (<[target := read_json_file E fs source]> fs,
     "Data saved successfully to " +:+ target).
Proof.
  intros Hr Hsrc Hload Hlib Hw.
  assert (Hread : read_json_file E fs source = json_dumps E v).
  { unfold read_json_file, open_read, open_check.
    rewrite Hr. cbv [bind]. rewrite Hsrc, Hload. reflexivity. }
  rewrite save_json_data_result, Hw, Hread.
  unfold parsed_data. now rewrite Hlib.
Qed.

Lemma read_then_save_copies_witness :
  open_refused Sample.env ModeR "extracted_receipts.json" = None
  /\ json_loads Sample.env "[1,2]" = Return (PList [PInt 1; PInt 2])
  /\ save_json_data Sample.env {["extracted_receipts.json" := "[1,2]"]}
       (PStr (read_json_file Sample.env {["extracted_receipts.json" := "[1,2]"]}
                "extracted_receipts.json")) "copy.json"
     = (<["copy.json" := read_json_file Sample.env
                            {["extracted_receipts.json" := "[1,2]"]}
                            "extracted_receipts.json"]>
          {["extracted_receipts.json" := "[1,2]"]},
        "Data saved successfully to " +:+ "copy.json").
Proof.
  split; [reflexivity|]. split; [vm_compute; reflexivity|].
  apply (read_then_save_copies Sample.env {["extracted_receipts.json" := "[1,2]"]}
           "extracted_receipts.json" "copy.json" "[1,2]" (PList [PInt 1; PInt 2]));
    vm_compute; reflexivity.
Defined.

(** X10.  An error of [read_json_file] that is passed on to
    [save_json_data] is saved as data: when the error text is not JSON
    it is written as a JSON string, and the save reports success. *)
Theorem read_error_is_saved_as_data
  (E : environment) (fs : files) (source target : string) (e e' : exn) :
  open_read E fs source = Raise e ->
  json_loads E ("Error reading file: " +:+ str e) = Raise e' ->
  open_refused E ModeW target = None ->
  save_json_data E fs (PStr (read_json_file E fs source)) target
  = (<[target := json_dumps E (PStr ("Error reading file: " +:+ str e))]> fs,
     "Data saved successfully to " +:+ target).
Proof.
  intros Hread Hjson Hw.
  assert (Hr : read_json_file E fs source = "Error reading file: " +:+ str e).
  { unfold read_json_file. rewrite Hread. reflexivity. }
  rewrite save_json_data_result, Hw, Hr.
  unfold parsed_data. now rewrite Hjson.
Qed.

Lemma read_error_is_saved_as_data_witness :
  open_read Sample.env ∅ "extracted_receipts.json"
  = Raise (Sample.no_such_file "extracted_receipts.json")
  /\ save_json_data Sample.env ∅
       (PStr (read_json_file Sample.env ∅ "extracted_receipts.json"))
       "aggregated_receipts.json"
     = (<["aggregated_receipts.json" :=
            json_dumps Sample.env
              (PStr ("Error reading file: " +:+
                     str (Sample.no_such_file "extracted_receipts.json")))]> ∅,
        "Data saved successfully to " +:+ "aggregated_receipts.json").
Proof.
  split; [reflexivity|].
  apply (read_error_is_saved_as_data Sample.env ∅ "extracted_receipts.json"
           "aggregated_receipts.json" (Sample.no_such_file "extracted_receipts.json")
           Sample.decode_error); vm_compute; reflexivity.
Defined.

(** X11.  An empty result of [list_pdf_files] is never an error: the
    directory was listed, and none of its entries is a PDF name. *)
Theorem list_pdf_files_empty_is_no_error (E : environment) (directory : string) :
  list_pdf_files E directory = [] ->
  exists names, os_listdir E directory = Return names
    /\ Forall (fun f => is_pdf_name f = false) names.
Proof.
  unfold list_pdf_files.
  destruct (os_listdir E directory) as [names|e]; cbv [try_except bind];
    [|discriminate].
  intros Hnil. exists names. split; [reflexivity|].
  induction names as [|f names IH]; [constructor|].
  simpl in Hnil. destruct (is_pdf_name f) eqn:Ef; [discriminate|].
  constructor; [exact Ef | exact (IH Hnil)].
Qed.

Lemma list_pdf_files_empty_is_no_error_witness :
  list_pdf_files Echo.env "texts" = []
  /\ exists names, os_listdir Echo.env "texts" = Return names
       /\ Forall (fun f => is_pdf_name f = false) names.
Proof.
  assert (H : list_pdf_files Echo.env "texts" = []) by (vm_compute; reflexivity).
  split; [exact H|].
  exact (list_pdf_files_empty_is_no_error Echo.env "texts" H).
Defined.

(** X12.  Every name of a successful listing passes the PDF filter, so
    a result holding a name that does not pass it can only be the
    report of a failure. *)
Theorem list_pdf_files_failure_is_detectable
  (E : environment) (directory name : string) :
  In name (list_pdf_files E directory) ->
  is_pdf_name name = false ->
  exists e, os_listdir E directory = Raise e
    /\ list_pdf_files E directory = ["Error listing files: " +:+ str e].
Proof.
  unfold list_pdf_files.
  destruct (os_listdir E directory) as [names|e]; cbv [try_except bind].
  - intros Hin Hno. apply filter_In in Hin as [_ Hyes]. congruence.
  - intros _ _. now exists e.
Qed.

Lemma list_pdf_files_failure_is_detectable_witness :
  In "Error listing files: [Errno 2] No such file or directory: 'missing'"
    (list_pdf_files Sample.env "missing")
  /\ is_pdf_name "Error listing files: [Errno 2] No such file or directory: 'missing'"
     = false
  /\ exists e, os_listdir Sample.env "missing" = Raise e
       /\ list_pdf_files Sample.env "missing" = ["Error listing files: " +:+ str e].
Proof.
  assert (H1 : In "Error listing files: [Errno 2] No such file or directory: 'missing'"
                 (list_pdf_files Sample.env "missing")) by (vm_compute; auto).
  assert (H2 : is_pdf_name
                 "Error listing files: [Errno 2] No such file or directory: 'missing'"
               = false) by (vm_compute; reflexivity).
  split; [exact H1|]. split; [exact H2|].
  exact (list_pdf_files_failure_is_detectable Sample.env "missing" _ H1 H2).
Defined.

(** X14.  The filter of [list_pdf_files] looks at the last four
    characters only and ignores their case: a name passes exactly when
    it ends with a dot followed by p, d and f in either case.  A name
    of fewer than four characters never passes. *)
Theorem is_pdf_name_suffix (f : string) :
  is_pdf_name f = true
  <-> exists stem c1 c2 c3,
        f = stem +:+ String "." (String c1 (String c2 (String c3 "")))
        /\ (c1 = "p" \/ c1 = "P")%char
        /\ (c2 = "d" \/ c2 = "D")%char
        /\ (c3 = "f" \/ c3 = "F")%char.
Proof.
  rewrite is_pdf_name_spec. unfold Str.lower. split.
  - intros [stem Hstem].
    apply (f_equal Str.to_list) in Hstem.
    rewrite StrFacts.to_of, StrFacts.to_list_app in Hstem.
    apply List.map_eq_app in Hstem as (l0 & l1 & Hf & _ & Hl1).
    destruct l1 as [|a [|b [|c [|d [|x l1]]]]]; try discriminate Hl1.
    injection Hl1 as Ha Hb Hc Hd.
    exists (Str.of_list l0), b, c, d. split.
    + rewrite <- (StrFacts.of_to f), Hf, StrFacts.of_list_app.
      apply MoreStrFacts.lower_char_dot in Ha. now rewrite Ha.
    + repeat split.
      * now apply (MoreStrFacts.lower_char_letter b "p").
      * now apply (MoreStrFacts.lower_char_letter c "d").
      * now apply (MoreStrFacts.lower_char_letter d "f").
  - intros (stem & c1 & c2 & c3 & -> & H1 & H2 & H3).
    exists (Str.of_list (List.map Str.lower_char (Str.to_list stem))).
    rewrite StrFacts.to_list_app, List.map_app, StrFacts.of_list_app.
    f_equal. simpl.
    rewrite (MoreStrFacts.lower_char_of_letter c1 "p"),
            (MoreStrFacts.lower_char_of_letter c2 "d"),
            (MoreStrFacts.lower_char_of_letter c3 "f"); auto.
Qed.

(** X15.  What [save_json_data] writes under a name is what a later
    [read_json_file] of that name returns, whatever calls of the two
    tools are made in between, as long as none of them saves under
    that name. *)
Theorem saved_data_is_read_back
  (E : environment) (fs : files) (data : pyval) (filename : string)
  (cs : list tool_call) :
  open_refused E ModeW filename = None ->
  open_refused E ModeR filename = None ->
  json_loads E (json_dumps E (parsed_data E data)) = Return (parsed_data E data) ->
  ~ In filename (saved_paths cs) ->
  read_json_file E
    (fst (run_calls E (fst (save_json_data E fs data filename)) cs)) filename
  = json_dumps E (parsed_data E data).
Proof.
  intros Hw Hr Hlib Hnot.
  rewrite (read_json_file_lookup E _ (fst (save_json_data E fs data filename)))
    by now apply run_calls_other_paths.
  rewrite read_after_save by assumption. now rewrite Hlib.
Qed.

Lemma saved_data_is_read_back_witness :
  open_refused Sample.env ModeW "extracted_receipts.json" = None
  /\ open_refused Sample.env ModeR "extracted_receipts.json" = None
  /\ ~ In "extracted_receipts.json"
         (saved_paths [Call_read_json_file "notes.json";
                       Call_save_json_data (PDict []) "aggregated_receipts.json"])
  /\ read_json_file Sample.env
       (fst (run_calls Sample.env
               (fst (save_json_data Sample.env ∅ (PStr "[1, 2]")
                       "extracted_receipts.json"))
               [Call_read_json_file "notes.json";
                Call_save_json_data (PDict []) "aggregated_receipts.json"]))
       "extracted_receipts.json"
     = json_dumps Sample.env (parsed_data Sample.env (PStr "[1, 2]")).
Proof.
  assert (Hnot : ~ In "extracted_receipts.json"
                   (saved_paths [Call_read_json_file "notes.json";
                                 Call_save_json_data (PDict [])
                                   "aggregated_receipts.json"])).
  { simpl. intros [Heq|[]]. discriminate Heq. }
  split; [reflexivity|]. split; [reflexivity|]. split; [exact Hnot|].
  apply (saved_data_is_read_back Sample.env ∅ (PStr "[1, 2]")
           "extracted_receipts.json"
           [Call_read_json_file "notes.json";
            Call_save_json_data (PDict []) "aggregated_receipts.json"]);
    [reflexivity | reflexivity | vm_compute; reflexivity | exact Hnot].
Defined.
